(** * Passfort: a shallow embedding of [Passfort.py]

    The development follows the source file top to bottom.  Python values
    are represented as follows.

    - [int] is [Z] (unbounded in both).
    - [str] is a list of Unicode code points, [pystr := list N]; a
      character is a string of length one and is represented by its code
      point.  String literals of the source are written [str "..."].
    - [float] is an exact rational in lowest terms ([Q] after [Qred]) for
      the transition ratio, whose only operations are one division of two
      integers, one multiplication by ten and [int()]; lemma
      [float_score_term_exact] compares this with binary64 arithmetic.
      The entropy, which goes through [math.log2], is a real number.
    - a [set] is a duplicate-free list; a [dict] with a fixed set of keys is
      a record, a key that is assigned later being an [option] field.
    - an exception (a subclass of [Exception]) is the [Raise] case of
      [result]; [try]/[except Exception] is [try_except].  A call that
      never returns is not modelled.
    - [secrets] draws from an explicit supply of raw random numbers.

    The predicates [str.isupper], [str.islower], [str.isdigit],
    [str.isalpha], the regular-expression class [\d] and [str.lower] are
    Unicode aware in Python.  Their behaviour on ASCII is written out; on
    the remaining code points it is given by a table [UCD] that the
    analyzer is parameterised by. *)

From Stdlib Require Import ZArith NArith List String Ascii Bool.
From Stdlib Require Import DecimalString QArith Qround Reals Lia Lra.
From Stdlib Require Import Permutation.
From Stdlib Require Floats Uint63.
Import ListNotations.

Open Scope Z_scope.

(** ** Exceptions *)

Inductive exn : Type :=
| ZeroDivisionError
| ValueError
| IndexError
| KeyError
| UnicodeEncodeError
| RequestException (reason : nat).

Inductive result (A : Type) : Type :=
| Ok (a : A)
| Raise (e : exn).

Arguments Ok {A} a.
Arguments Raise {A} e.

Definition bind {A B} (m : result A) (k : A -> result B) : result B :=
  match m with
  | Ok a => k a
  | Raise e => Raise e
  end.

Notation "x <- m ;; k" := (bind m (fun x => k))
  (at level 61, m at next level, right associativity).

(** [try: body / except Exception: handler]. *)
Definition try_except {A} (body : result A) (handler : exn -> result A)
  : result A :=
  match body with
  | Ok a => Ok a
  | Raise e => handler e
  end.

(** ** Strings *)

Definition char := N.
Definition pystr := list char.

Definition str (s : string) : pystr :=
  map N_of_ascii (list_ascii_of_string s).
Arguments str s%_string.

Definition len {A} (s : list A) : Z := Z.of_nat (List.length s).

Definition ord (c : char) : Z := Z.of_N c.

Fixpoint pystr_eqb (s t : pystr) : bool :=
  match s, t with
  | [], [] => true
  | a :: s', b :: t' => N.eqb a b && pystr_eqb s' t'
  | _, _ => false
  end.

(** [c in s] for a character [c], and [x in xs] for a collection of
    strings. *)
Definition char_in (c : char) (s : pystr) : bool := existsb (N.eqb c) s.

Definition str_in (x : pystr) (xs : list pystr) : bool :=
  existsb (pystr_eqb x) xs.

Fixpoint startswith (s prefix : pystr) : bool :=
  match prefix, s with
  | [], _ => true
  | a :: p', b :: s' => N.eqb a b && startswith s' p'
  | _ :: _, [] => false
  end.

(** [needle in hay] for strings: substring search. *)
Fixpoint contains (hay needle : pystr) : bool :=
  startswith hay needle
  || match hay with
     | [] => false
     | _ :: hay' => contains hay' needle
     end.

(** [s.count(c)] for a one-character [c]. *)
Definition count (s : pystr) (c : char) : Z :=
  len (filter (N.eqb c) s).

(** [s.replace(old, new)] for one-character [old] and [new]. *)
Definition replace (s : pystr) (old new : char) : pystr :=
  map (fun c => if N.eqb c old then new else c) s.

(** [set(s)]: the distinct elements. *)
Definition set (s : pystr) : list char := nodup N.eq_dec s.

(** [s[i]] on a string or a list, with Python's negative indices. *)
Definition getitem {A} (s : list A) (i : Z) : result A :=
  let j := if i <? 0 then i + len s else i in
  if j <? 0 then Raise IndexError
  else match nth_error s (Z.to_nat j) with
       | Some c => Ok c
       | None => Raise IndexError
       end.

(** [range(n)]. *)
Definition range (n : Z) : list Z := map Z.of_nat (seq 0 (Z.to_nat n)).

(** ** The [string] module *)

Definition ascii_lowercase : pystr := str "abcdefghijklmnopqrstuvwxyz".
Definition ascii_uppercase : pystr := str "ABCDEFGHIJKLMNOPQRSTUVWXYZ".
Definition ascii_letters : pystr := ascii_lowercase ++ ascii_uppercase.
Definition digits : pystr := str "0123456789".
Definition punctuation : pystr :=
  str "!" ++ [34%N] ++ str "#$%&'()*+,-./:;<=>?@[\]^_`{|}~".
Definition whitespace : pystr := [32; 9; 10; 13; 11; 12]%N.
Definition printable : pystr :=
  digits ++ ascii_letters ++ punctuation ++ whitespace.

(** ** Unicode character properties *)

Definition is_ascii (c : char) : bool := (c <? 128)%N.

Definition between (lo hi c : N) : bool := ((lo <=? c) && (c <=? hi))%N.

(** What CPython's Unicode database says about the code points from
    U+0080 on: the character predicates behind [str.isupper],
    [str.islower], [str.isdigit], [str.isalpha] and the class [\d], and
    [str.lower] and [str.upper] on a string that is not pure ASCII
    (functions of the whole string: the lower case of a capital sigma
    depends on its position, and the upper case of a sharp s is two
    characters). *)
Record UCD : Type := {
  uc_isupper : char -> bool;
  uc_islower : char -> bool;
  uc_isdigit : char -> bool;
  uc_isalpha : char -> bool;
  uc_isdecimal : char -> bool;
  uc_lower : pystr -> pystr;
  uc_upper : pystr -> pystr
}.

(** The Latin-1 supplement (U+0080 to U+00FF) of the Unicode character
    database; code points above U+00FF are left unclassified by this
    table, so it agrees with CPython on Latin-1 strings only. *)
Definition latin1_isupper (c : char) : bool :=
  between 192 214 c || between 216 222 c.

Definition latin1_islower (c : char) : bool :=
  N.eqb c 170 || N.eqb c 181 || N.eqb c 186
  || between 223 246 c || between 248 255 c.

Definition latin1_isdigit (c : char) : bool :=
  N.eqb c 178 || N.eqb c 179 || N.eqb c 185.

Definition latin1_isalpha (c : char) : bool :=
  latin1_isupper c || latin1_islower c.

Definition ascii_lower_char (c : char) : char :=
  if between 65 90 c then (c + 32)%N else c.

Definition ascii_upper_char (c : char) : char :=
  if between 97 122 c then (c - 32)%N else c.

Definition latin1_lower_char (c : char) : char :=
  if is_ascii c then ascii_lower_char c
  else if latin1_isupper c then (c + 32)%N else c.

Definition latin1_upper_char (c : char) : pystr :=
  if is_ascii c then [ascii_upper_char c]
  else if N.eqb c 181 then [924%N]
  else if N.eqb c 223 then [83; 83]%N
  else if N.eqb c 255 then [376%N]
  else if between 224 246 c || between 248 254 c then [(c - 32)%N]
  else [c].

Definition latin1 : UCD := {|
  uc_isupper := latin1_isupper;
  uc_islower := latin1_islower;
  uc_isdigit := latin1_isdigit;
  uc_isalpha := latin1_isalpha;
  uc_isdecimal := fun _ => false;
  uc_lower := map latin1_lower_char;
  uc_upper := fun s => List.concat (map latin1_upper_char s)
|}.

(** ** Numbers *)

(** [a / b] on integers: true division, with the quotient kept exact. *)
Definition truediv (a b : Z) : result Q :=
  if b =? 0 then Raise ZeroDivisionError
  else Ok (Qred (inject_Z a / inject_Z b)).

(** [int(x)]: truncation towards zero. *)
Definition int (x : Q) : Z :=
  if Qle_bool 0 x then Qfloor x else Qceiling x.

(** [math.log2] on an integer argument. *)
Definition log2 (x : Z) : result R :=
  if x <=? 0 then Raise ValueError
  else Ok (ln (IZR x) / ln 2)%R.

(** [min] and [max] are [Z.min] and [Z.max]. *)

(** ** Loops *)

(** [for i in idx: if <test i>: return True] followed by [return False]. *)
Fixpoint for_return_true (test : Z -> result bool) (idx : list Z)
  : result bool :=
  match idx with
  | [] => Ok false
  | i :: idx' =>
      b <- test i ;;
      if b then Ok true else for_return_true test idx'
  end.

(** [for i in idx: <acc updated by body i>]. *)
Fixpoint for_acc {S} (body : Z -> S -> result S) (idx : list Z) (acc : S)
  : result S :=
  match idx with
  | [] => Ok acc
  | i :: idx' => acc' <- body i acc ;; for_acc body idx' acc'
  end.

(** [for x in xs: if <test x>: return True], over any sequence. *)
Fixpoint for_in_return_true {A} (test : A -> result bool) (xs : list A)
  : result bool :=
  match xs with
  | [] => Ok false
  | x :: xs' =>
      b <- test x ;;
      if b then Ok true else for_in_return_true test xs'
  end.

(** ** More string operations *)

(** [s.split(sep)] for a non-empty separator: [skip] characters of a
    separator that has just been recognised are still to be dropped, and
    [cur] is the current piece, reversed. *)
Fixpoint split_go (sep s : pystr) (skip : nat) (cur : pystr) : list pystr :=
  match s with
  | [] => [rev cur]
  | c :: s' =>
      match skip with
      | S k => split_go sep s' k cur
      | O =>
          if startswith s sep
          then rev cur :: split_go sep s' (List.length sep - 1) []
          else split_go sep s' 0 (c :: cur)
      end
  end.

Definition split (s sep : pystr) : list pystr := split_go sep s 0 [].

(** [s.encode()]: UTF-8; a surrogate or a value that is no code point
    cannot be encoded. *)
Definition utf8_char (c : char) : result (list N) :=
  (if c <? 128 then Ok [c]
   else if c <? 2048 then Ok [192 + c / 64; 128 + c mod 64]
   else if between 55296 57343 c then Raise UnicodeEncodeError
   else if c <? 65536
        then Ok [224 + c / 4096; 128 + (c / 64) mod 64; 128 + c mod 64]
   else if c <? 1114112
        then Ok [240 + c / 262144; 128 + (c / 4096) mod 64;
                 128 + (c / 64) mod 64; 128 + c mod 64]
   else Raise UnicodeEncodeError)%N.

Fixpoint encode (s : pystr) : result (list N) :=
  match s with
  | [] => Ok []
  | c :: s' =>
      b <- utf8_char c ;;
      bs <- encode s' ;;
      Ok (b ++ bs)
  end.

(** [str(n)] for an integer. *)
Definition str_of_int (n : Z) : pystr :=
  str (NilZero.string_of_int (Z.to_int n)).

(** ** Regular expressions: the fragment the date patterns use

    A pattern is a sequence of items [cls{lo,hi}]; [re.search] reports
    whether the pattern matches at some position. *)

Inductive item : Type := Rep (cls : char -> bool) (lo hi : nat).

Definition regex := list item.

Fixpoint take_rep (cls : char -> bool) (n : nat) (s : pystr)
  : option pystr :=
  match n with
  | O => Some s
  | S n' =>
      match s with
      | c :: s' => if cls c then take_rep cls n' s' else None
      | [] => None
      end
  end.

Fixpoint match_here (r : regex) (s : pystr) : bool :=
  match r with
  | [] => true
  | Rep cls lo hi :: r' =>
      existsb (fun n => match take_rep cls n s with
                        | Some s' => match_here r' s'
                        | None => false
                        end)
              (seq lo (S hi - lo))
  end.

Fixpoint re_search (r : regex) (s : pystr) : bool :=
  match_here r s
  || match s with
     | [] => false
     | _ :: s' => re_search r s'
     end.

(** ** The [secrets] module

    The operating system's random source is a supply of raw numbers, read
    one per draw; [randbelow n] reduces the raw number below [n], so every
    value below [n] can come out and nothing else. *)

Record rng : Type := { supply : nat -> N; pos : nat }.

Definition gen (A : Type) : Type := rng -> result (A * rng).

Definition ret {A} (a : A) : gen A := fun g => Ok (a, g).

Definition bindg {A B} (m : gen A) (k : A -> gen B) : gen B :=
  fun g => match m g with
           | Ok (a, g') => k a g'
           | Raise e => Raise e
           end.

Notation "x <~ m ;; k" := (bindg m (fun x => k))
  (at level 61, m at next level, right associativity).

Definition randbelow (n : Z) : gen Z :=
  fun g =>
    if n <=? 0 then Raise ValueError
    else Ok (Z.of_N (supply g (pos g)) mod n,
             {| supply := supply g; pos := S (pos g) |}).

Definition choice {A} (xs : list A) : gen A :=
  fun g =>
    match xs with
    | [] => Raise IndexError
    | x :: _ =>
        match randbelow (len xs) g with
        | Ok (i, g') => Ok (nth (Z.to_nat i) xs x, g')
        | Raise e => Raise e
        end
    end.

(** [[body for _ in idx]], evaluated left to right. *)
Fixpoint for_gen {A} (body : Z -> gen A) (idx : list Z) : gen (list A) :=
  match idx with
  | [] => ret []
  | i :: idx' =>
      x <~ body i ;;
      xs <~ for_gen body idx' ;;
      ret (x :: xs)
  end.

(** [''.join(pieces)]. *)
Definition join (pieces : list pystr) : pystr := List.concat pieces.

(** [s * n]. *)
Definition repeat_str (s : pystr) (n : nat) : pystr :=
  List.concat (repeat s n).

(** ** [hashlib.sha1]

    SHA-1 on a list of bytes, with 32-bit words as [Z] and the wrap-around
    written out. *)

Module SHA1.

Definition mask32 : Z := 0xFFFFFFFF.

Definition add32 (x y : Z) : Z := (x + y) mod 0x100000000.

Definition rotl (n x : Z) : Z :=
  Z.land (Z.lor (Z.shiftl x n) (Z.shiftr x (32 - n))) mask32.

Definition f (t : nat) (b c d : Z) : Z :=
  if (t <? 20)%nat then Z.lor (Z.land b c) (Z.land (Z.lxor b mask32) d)
  else if (t <? 40)%nat then Z.lxor (Z.lxor b c) d
  else if (t <? 60)%nat
       then Z.lor (Z.lor (Z.land b c) (Z.land b d)) (Z.land c d)
  else Z.lxor (Z.lxor b c) d.

Definition k (t : nat) : Z :=
  if (t <? 20)%nat then 0x5A827999
  else if (t <? 40)%nat then 0x6ED9EBA1
  else if (t <? 60)%nat then 0x8F1BBCDC
  else 0xCA62C1D6.

(** The message, a one bit, zeros up to 56 modulo 64, and the length in
    bits as eight bytes. *)
Definition pad (msg : list Z) : list Z :=
  let l := List.length msg in
  let zeros := ((64 - (l + 9) mod 64) mod 64)%nat in
  let bits := 8 * Z.of_nat l in
  msg ++ [0x80] ++ repeat 0 zeros
      ++ map (fun i => (bits / 256 ^ (7 - i)) mod 256) (range 8).

Fixpoint words (bs : list Z) : list Z :=
  match bs with
  | a :: b :: c :: d :: bs' =>
      (a * 0x1000000 + b * 0x10000 + c * 0x100 + d) :: words bs'
  | _ => []
  end.

Fixpoint blocks (n : nat) (ws : list Z) : list (list Z) :=
  match n with
  | O => []
  | S n' => firstn 16 ws :: blocks n' (skipn 16 ws)
  end.

(** The message schedule, latest word first. *)
Fixpoint extend (n : nat) (w : list Z) : list Z :=
  match n with
  | O => w
  | S n' =>
      let x := Z.lxor (Z.lxor (nth 2 w 0) (nth 7 w 0))
                      (Z.lxor (nth 13 w 0) (nth 15 w 0)) in
      extend n' (rotl 1 x :: w)
  end.

Definition state : Type := Z * Z * Z * Z * Z.

Definition round (s : state) (tw : nat * Z) : state :=
  let '(a, b, c, d, e) := s in
  let '(t, w) := tw in
  let temp :=
    add32 (add32 (add32 (add32 (rotl 5 a) (f t b c d)) e) (k t)) w in
  (temp, a, rotl 30 b, c, d).

Definition compress (h : state) (block : list Z) : state :=
  let w := rev (extend 64 (rev block)) in
  let '(a, b, c, d, e) := fold_left round (combine (seq 0 80) w) h in
  let '(h0, h1, h2, h3, h4) := h in
  (add32 h0 a, add32 h1 b, add32 h2 c, add32 h3 d, add32 h4 e).

Definition init : state :=
  (0x67452301, 0xEFCDAB89, 0x98BADCFE, 0x10325476, 0xC3D2E1F0).

Definition digest (msg : list N) : state :=
  let ws := words (pad (map Z.of_N msg)) in
  fold_left compress (blocks (List.length ws / 16) ws) init.

Definition hex_word (x : Z) : pystr :=
  map (fun i => nth (Z.to_nat ((x / 16 ^ (7 - i)) mod 16))
                    (str "0123456789abcdef") 0%N)
      (range 8).

Definition hexdigest (msg : list N) : pystr :=
  let '(h0, h1, h2, h3, h4) := digest msg in
  hex_word h0 ++ hex_word h1 ++ hex_word h2 ++ hex_word h3 ++ hex_word h4.

End SHA1.

(** ** The records of the analyzer *)

(** [requests.get(url, headers=...)]: the network is an input of the
    program.  A call either raises or returns a response. *)
Record Response : Type := { status_code : Z; text : pystr }.

Definition http : Type := pystr -> list (pystr * pystr) -> result Response.

(** The [metrics] dictionary.  It starts empty and receives its keys by
    [update] and by assignment, so every key is optional; reading an absent
    key raises [KeyError]. *)
Module Metrics.

Record t : Type := {
  length : option Z;
  has_uppercase : option bool;
  has_lowercase : option bool;
  has_digits : option bool;
  has_special : option bool;
  repeated_chars : option bool;
  sequential_chars : option bool;
  keyboard_pattern : option bool;
  character_transitions : option Q;
  breached : option bool
}.

Definition empty : t :=
  {| length := None; has_uppercase := None; has_lowercase := None;
     has_digits := None; has_special := None; repeated_chars := None;
     sequential_chars := None; keyboard_pattern := None;
     character_transitions := None; breached := None |}.

Definition over {A} (new old : option A) : option A :=
  match new with Some _ => new | None => old end.

(** [m.update(d)]. *)
Definition update (m d : t) : t :=
  {| length := over (length d) (length m);
     has_uppercase := over (has_uppercase d) (has_uppercase m);
     has_lowercase := over (has_lowercase d) (has_lowercase m);
     has_digits := over (has_digits d) (has_digits m);
     has_special := over (has_special d) (has_special m);
     repeated_chars := over (repeated_chars d) (repeated_chars m);
     sequential_chars := over (sequential_chars d) (sequential_chars m);
     keyboard_pattern := over (keyboard_pattern d) (keyboard_pattern m);
     character_transitions :=
       over (character_transitions d) (character_transitions m);
     breached := over (breached d) (breached m) |}.

(** [m['breached'] = b]. *)
Definition set_breached (m : t) (b : bool) : t :=
  {| length := length m;
     has_uppercase := has_uppercase m;
     has_lowercase := has_lowercase m;
     has_digits := has_digits m;
     has_special := has_special m;
     repeated_chars := repeated_chars m;
     sequential_chars := sequential_chars m;
     keyboard_pattern := keyboard_pattern m;
     character_transitions := character_transitions m;
     breached := Some b |}.

(** [m[key]]. *)
Definition get {A} (field : t -> option A) (m : t) : result A :=
  match field m with
  | Some v => Ok v
  | None => Raise KeyError
  end.

End Metrics.

(** The [analysis] dictionary; all its keys are present from the start. *)
Module Analysis.

Record t : Type := {
  strength_score : Z;
  entropy : R;
  weaknesses : list pystr;
  recommendations : list pystr;
  metrics : Metrics.t;
  suggested_passwords : list pystr
}.

Definition set_metrics (a : t) (m : Metrics.t) : t :=
  {| strength_score := strength_score a; entropy := entropy a;
     weaknesses := weaknesses a; recommendations := recommendations a;
     metrics := m; suggested_passwords := suggested_passwords a |}.

Definition set_weaknesses (a : t) (w : list pystr) : t :=
  {| strength_score := strength_score a; entropy := entropy a;
     weaknesses := w; recommendations := recommendations a;
     metrics := metrics a; suggested_passwords := suggested_passwords a |}.

Definition set_entropy (a : t) (e : R) : t :=
  {| strength_score := strength_score a; entropy := e;
     weaknesses := weaknesses a; recommendations := recommendations a;
     metrics := metrics a; suggested_passwords := suggested_passwords a |}.

Definition set_strength_score (a : t) (s : Z) : t :=
  {| strength_score := s; entropy := entropy a;
     weaknesses := weaknesses a; recommendations := recommendations a;
     metrics := metrics a; suggested_passwords := suggested_passwords a |}.

Definition set_recommendations (a : t) (r : list pystr) : t :=
  {| strength_score := strength_score a; entropy := entropy a;
     weaknesses := weaknesses a; recommendations := r;
     metrics := metrics a; suggested_passwords := suggested_passwords a |}.

Definition set_suggested_passwords (a : t) (s : list pystr) : t :=
  {| strength_score := strength_score a; entropy := entropy a;
     weaknesses := weaknesses a; recommendations := recommendations a;
     metrics := metrics a; suggested_passwords := s |}.

End Analysis.

(** The attributes of a [PasswordAnalyzer] object; [char_sets] keeps the
    insertion order of the dictionary. *)
Record PasswordAnalyzer : Type := {
  common_passwords : list pystr;
  char_sets : list (pystr * list char);
  keyboard_patterns : list pystr;
  last_api_call : Z
}.

Definition values {K V} (d : list (K * V)) : list V := map snd d.

Definition ch (a : ascii) : char := N_of_ascii a.
Arguments ch a%_char.

(** The sequence of the characters of a string, each a string of its
    own. *)
Definition chars (s : pystr) : list pystr := map (fun c => [c]) s.

(** * class PasswordAnalyzer *)

Section Analyzer.

Variable ucd : UCD.

(** ** Methods of [str] that consult the Unicode database *)

Definition isupper (c : char) : bool :=
  if is_ascii c then between 65 90 c else uc_isupper ucd c.

Definition islower (c : char) : bool :=
  if is_ascii c then between 97 122 c else uc_islower ucd c.

Definition isdigit (c : char) : bool :=
  if is_ascii c then between 48 57 c else uc_isdigit ucd c.

Definition isalpha (c : char) : bool :=
  if is_ascii c then between 65 90 c || between 97 122 c
  else uc_isalpha ucd c.

(** The class [\d] of a [str] pattern. *)
Definition isdecimal (c : char) : bool :=
  if is_ascii c then between 48 57 c else uc_isdecimal ucd c.

Definition lower (s : pystr) : pystr :=
  if forallb is_ascii s then map ascii_lower_char s else uc_lower ucd s.

Definition upper (s : pystr) : pystr :=
  if forallb is_ascii s then map ascii_upper_char s else uc_upper ucd s.

(** [s.capitalize()], for the ASCII words it is applied to. *)
Definition capitalize (s : pystr) : pystr :=
  match s with
  | [] => []
  | c :: s' => upper [c] ++ lower s'
  end.

(** ** Construction *)

Definition _load_common_passwords : list pystr :=
  [ str "password"; str "123456"; str "qwerty"; str "admin"; str "letmein";
    str "welcome"; str "monkey"; str "football"; str "abc123";
    str "password1"; str "12345678"; str "111111"; str "123123";
    str "admin123"; str "master"; str "sunshine"; str "princess";
    str "dragon"; str "passw0rd"; str "baseball"; str "trustno1";
    str "shadow"; str "michael"; str "jennifer"; str "superman";
    str "123456789"; str "qazwsx"; str "killer"; str "bailey";
    str "password123" ].

Definition __init__ : PasswordAnalyzer :=
  {| common_passwords := _load_common_passwords;
     char_sets :=
       [ (str "lowercase", set ascii_lowercase);
         (str "uppercase", set ascii_uppercase);
         (str "digits", set digits);
         (str "special", set punctuation) ];
     keyboard_patterns :=
       [ str "qwerty"; str "asdfgh"; str "zxcvbn"; str "qazwsx";
         str "1q2w3e"; str "poiuyt"; str "lkjhgf"; str "mnbvcx";
         str "123qwe"; str "zaq12wsx" ];
     last_api_call := 0 |}.

Variable self : PasswordAnalyzer.

(** ** The breach lookup

    The decorators [sleep_and_retry] and [limits] delay the call and leave
    its result as it is; they are not part of the model. *)
Definition _check_hibp_breach (requests_get : http) (password : pystr)
  : result bool :=
  try_except
    (bytes <- encode password ;;
     let sha1 := upper (SHA1.hexdigest bytes) in
     let prefix := firstn 5 sha1 in
     let suffix := skipn 5 sha1 in
     let url := str "https://api.pwnedpasswords.com/range/" ++ prefix in
     let headers := [(str "User-Agent", str "PasswordAnalyzer/1.0")] in
     response <- requests_get url headers ;;
     found <-
       (if status_code response =? 200
        then
          let hashes := split (text response) [13; 10]%N in
          for_in_return_true
            (fun h =>
               first <- getitem (split h (str ":")) 0 ;;
               Ok (pystr_eqb first suffix))
            hashes
        else Ok false) ;;
     if found then Ok true else Ok false)
    (fun _ => Ok false).

(** ** The detectors *)

Definition _check_keyboard_patterns (password : pystr) : bool :=
  let pwd_lower := lower password in
  existsb (fun pattern => contains pwd_lower pattern)
          (keyboard_patterns self).

Definition date_patterns : list regex :=
  let d := isdecimal in
  let sep := fun c => char_in c (str "/-") in
  [ [Rep d 4 4];
    [Rep d 2 2; Rep sep 1 1; Rep d 2 2];
    [Rep d 2 2; Rep sep 1 1; Rep d 2 2; Rep sep 1 1; Rep d 2 4] ].

Definition _check_date_patterns (password : pystr) : bool :=
  existsb (fun pattern => re_search pattern password) date_patterns.

(** The two characters of a pair are read once, at the head of the
    body. *)
Definition _analyze_char_transitions (password : pystr) : result Q :=
  if len password <? 2 then Ok 1%Q
  else
    transitions <-
      for_acc
        (fun i transitions =>
           a <- getitem password i ;;
           b <- getitem password (i + 1) ;;
           if isalpha a && isalpha b
           then
             if negb (Bool.eqb (isupper a) (isupper b))
             then Ok (transitions + 1)
             else Ok transitions
           else if negb (Bool.eqb (isdigit a) (isdigit b))
           then Ok (transitions + 1)
           else if negb (Bool.eqb (char_in a punctuation)
                                  (char_in b punctuation))
           then Ok (transitions + 1)
           else Ok transitions)
        (range (len password - 1)) 0 ;;
    truediv transitions (len password - 1).

Definition _calculate_entropy (password : pystr) : result R :=
  let char_pool :=
    fold_left
      (fun char_pool char_set =>
         if existsb (fun c => char_in c char_set) password
         then char_pool + len char_set
         else char_pool)
      (values (char_sets self)) 0 in
  if char_pool =? 0 then Ok 0%R
  else
    l <- log2 char_pool ;;
    Ok (IZR (len password) * l)%R.

Definition _check_repeated_chars (password : pystr) : bool :=
  existsb (fun c => 4 <=? count password c) (set password).

Definition _check_sequences (password : pystr) : result bool :=
  for_return_true
    (fun i =>
       c1 <- getitem password (i + 1) ;;
       c0 <- getitem password i ;;
       if ord c1 =? ord c0 + 1
       then
         c2 <- getitem password (i + 2) ;;
         c1' <- getitem password (i + 1) ;;
         Ok (ord c2 =? ord c1' + 1)
       else Ok false)
    (range (len password - 2)).

Definition common_subs : list (char * char) :=
  [ (ch "@", ch "a"); (ch "0", ch "o"); (ch "1", ch "l"); (ch "!", ch "i");
    (ch "3", ch "e"); (ch "$", ch "s"); (ch "7", ch "t"); (ch "4", ch "a");
    (ch "9", ch "g"); (ch "8", ch "b") ].

Definition common_words : list pystr :=
  [ str "password"; str "admin"; str "user"; str "login"; str "secret";
    str "account"; str "love"; str "work"; str "home"; str "family" ].

Definition _has_dictionary_patterns (password : pystr) : bool :=
  let normalized :=
    fold_left (fun normalized '(sub, char) => replace normalized sub char)
              common_subs (lower password) in
  existsb (fun word => contains normalized word) common_words.

(** ** Metrics and weaknesses *)

Definition _evaluate_strength (password : pystr) : result Metrics.t :=
  let length := len password in
  let has_uppercase := existsb isupper password in
  let has_lowercase := existsb islower password in
  let has_digits := existsb isdigit password in
  let has_special := existsb (fun c => char_in c punctuation) password in
  let repeated_chars := _check_repeated_chars password in
  sequential_chars <- _check_sequences password ;;
  let keyboard_pattern := _check_keyboard_patterns password in
  character_transitions <- _analyze_char_transitions password ;;
  Ok {| Metrics.length := Some length;
        Metrics.has_uppercase := Some has_uppercase;
        Metrics.has_lowercase := Some has_lowercase;
        Metrics.has_digits := Some has_digits;
        Metrics.has_special := Some has_special;
        Metrics.repeated_chars := Some repeated_chars;
        Metrics.sequential_chars := Some sequential_chars;
        Metrics.keyboard_pattern := Some keyboard_pattern;
        Metrics.character_transitions := Some character_transitions;
        Metrics.breached := None |}.

Definition msg_common : pystr := str "Password is in common password list".
Definition msg_keyboard : pystr := str "Contains keyboard pattern sequences".
Definition msg_username : pystr := str "Password contains username".
Definition msg_dictionary : pystr :=
  str "Contains predictable dictionary patterns".
Definition msg_date : pystr := str "Contains date-like patterns".

(** [if cond: xs.append(x)]. *)
Definition append_if (cond : bool) (xs : list pystr) (x : pystr)
  : list pystr :=
  if cond then xs ++ [x] else xs.

(** A string is true when it is not empty. *)
Definition truthy (s : pystr) : bool :=
  match s with [] => false | _ :: _ => true end.

Definition _detect_weaknesses (password username : pystr) : list pystr :=
  let weaknesses := [] in
  let pwd_lower := lower password in
  let weaknesses :=
    append_if (str_in pwd_lower (common_passwords self))
              weaknesses msg_common in
  let weaknesses :=
    append_if (_check_keyboard_patterns password) weaknesses msg_keyboard in
  let weaknesses :=
    append_if (truthy username && contains pwd_lower (lower username))
              weaknesses msg_username in
  let weaknesses :=
    append_if (_has_dictionary_patterns password)
              weaknesses msg_dictionary in
  let weaknesses :=
    append_if (_check_date_patterns password) weaknesses msg_date in
  weaknesses.

(** ** Score and recommendations *)

Definition _calculate_strength_score (analysis : Analysis.t) : result Z :=
  let metrics := Analysis.metrics analysis in
  length <- Metrics.get Metrics.length metrics ;;
  let score := Z.min (length * 4) 40 in
  has_uppercase <- Metrics.get Metrics.has_uppercase metrics ;;
  let score := if has_uppercase : bool then score + 10 else score in
  has_lowercase <- Metrics.get Metrics.has_lowercase metrics ;;
  let score := if has_lowercase : bool then score + 10 else score in
  has_digits <- Metrics.get Metrics.has_digits metrics ;;
  let score := if has_digits : bool then score + 10 else score in
  has_special <- Metrics.get Metrics.has_special metrics ;;
  let score := if has_special : bool then score + 10 else score in
  character_transitions <-
    Metrics.get Metrics.character_transitions metrics ;;
  let score := score + int (character_transitions * 10)%Q in
  repeated_chars <- Metrics.get Metrics.repeated_chars metrics ;;
  let score := if repeated_chars : bool then score - 15 else score in
  sequential_chars <- Metrics.get Metrics.sequential_chars metrics ;;
  let score := if sequential_chars : bool then score - 15 else score in
  keyboard_pattern <- Metrics.get Metrics.keyboard_pattern metrics ;;
  let score := if keyboard_pattern : bool then score - 20 else score in
  let score :=
    match Analysis.weaknesses analysis with
    | _ :: _ => score - 20
    | [] => score
    end in
  breached <- Metrics.get Metrics.breached metrics ;;
  let score := if breached : bool then score - 30 else score in
  Ok (Z.max 0 (Z.min 100 score)).

Definition rec_stronger : pystr :=
  str "Use a stronger password with more complexity".
Definition rec_length : pystr :=
  str "Increase password length to at least 12 characters".
Definition rec_mix : pystr :=
  str "Mix uppercase, lowercase, numbers, and special characters".
Definition rec_breach : pystr :=
  str "This password was found in a breach - change it immediately".
Definition rec_keyboard : pystr :=
  str "Avoid keyboard patterns (e.g., qwerty, asdf)".
Definition rec_passphrase : pystr :=
  str "Consider using a unique passphrase (e.g., 'CorrectHorseBatteryStaple')".

Definition _generate_recommendations (analysis : Analysis.t)
  : result (list pystr) :=
  let recs := [] in
  let metrics := Analysis.metrics analysis in
  let recs :=
    append_if (Analysis.strength_score analysis <? 60) recs rec_stronger in
  length <- Metrics.get Metrics.length metrics ;;
  let recs := append_if (length <? 12) recs rec_length in
  has_uppercase <- Metrics.get Metrics.has_uppercase metrics ;;
  has_lowercase <- Metrics.get Metrics.has_lowercase metrics ;;
  has_digits <- Metrics.get Metrics.has_digits metrics ;;
  has_special <- Metrics.get Metrics.has_special metrics ;;
  let recs :=
    append_if
      (negb (forallb (fun b => b)
               [has_uppercase; has_lowercase; has_digits; has_special]))
      recs rec_mix in
  breached <- Metrics.get Metrics.breached metrics ;;
  let recs := append_if breached recs rec_breach in
  keyboard_pattern <- Metrics.get Metrics.keyboard_pattern metrics ;;
  let recs := append_if keyboard_pattern recs rec_keyboard in
  let recs := recs ++ [rec_passphrase] in
  Ok recs.

(** ** Suggestions *)

Definition generate_secure_password (length : Z) : gen pystr :=
  let alphabet := ascii_letters ++ digits ++ punctuation in
  picks <~ for_gen (fun _ => choice (chars alphabet)) (range length) ;;
  ret (join picks).

Definition words : list pystr :=
  [ str "correct"; str "horse"; str "battery"; str "staple"; str "blue";
    str "mountain"; str "thunder"; str "river"; str "silver"; str "cloud" ].

Definition _suggest_strong_passwords : gen (list pystr) :=
  let suggestions := [] in
  random16 <~ generate_secure_password 16 ;;
  let suggestions := suggestions ++ [random16] in
  caps <~ for_gen (fun _ => w <~ choice words ;; ret (capitalize w))
                  (range 4) ;;
  n <~ randbelow 100 ;;
  let passphrase := join caps ++ str_of_int n in
  let suggestions := suggestions ++ [passphrase] in
  c1 <~ choice (chars ascii_uppercase) ;;
  c2 <~ choice (chars (repeat_str ascii_lowercase 5)) ;;
  c3 <~ choice (chars (repeat_str digits 3)) ;;
  c4 <~ choice (chars (repeat_str punctuation 2)) ;;
  rest <~ for_gen (fun _ => choice (chars printable)) (range 10) ;;
  let complex_pwd := c1 ++ c2 ++ c3 ++ c4 ++ join rest in
  let suggestions := suggestions ++ [complex_pwd] in
  ret suggestions.

(** ** The analysis *)

Definition lift {A} (m : result A) : gen A :=
  fun g => match m with
           | Ok a => Ok (a, g)
           | Raise e => Raise e
           end.

Definition analyze_password (requests_get : http)
    (password username : pystr) : gen Analysis.t :=
  let analysis :=
    {| Analysis.strength_score := 0;
       Analysis.entropy := 0%R;
       Analysis.weaknesses := [];
       Analysis.recommendations := [];
       Analysis.metrics := Metrics.empty;
       Analysis.suggested_passwords := [] |} in
  m <~ lift (_evaluate_strength password) ;;
  let analysis :=
    Analysis.set_metrics analysis
      (Metrics.update (Analysis.metrics analysis) m) in
  let analysis :=
    Analysis.set_weaknesses analysis
      (Analysis.weaknesses analysis
         ++ _detect_weaknesses password username) in
  e <~ lift (_calculate_entropy password) ;;
  let analysis := Analysis.set_entropy analysis e in
  b <~ lift (_check_hibp_breach requests_get password) ;;
  let analysis :=
    Analysis.set_metrics analysis
      (Metrics.set_breached (Analysis.metrics analysis) b) in
  s <~ lift (_calculate_strength_score analysis) ;;
  let analysis := Analysis.set_strength_score analysis s in
  r <~ lift (_generate_recommendations analysis) ;;
  let analysis := Analysis.set_recommendations analysis r in
  p <~ _suggest_strong_passwords ;;
  let analysis := Analysis.set_suggested_passwords analysis p in
  ret analysis.

End Analyzer.

(** * The vocabulary of the specification

    The definitions below are not code of [Passfort.py].  They name what
    the specification talks about, in its words, so that the statements at
    the end of the file can compare them with the code above. *)

Section Vocabulary.

Variable ucd : UCD.

(** ** Character transitions *)

(** What one adjacent pair adds to the counter of
    [_analyze_char_transitions], as its loop body decides it. *)
Definition pair_step (a b : char) : Z :=
  if isalpha ucd a && isalpha ucd b
  then if negb (Bool.eqb (isupper ucd a) (isupper ucd b)) then 1 else 0
  else if negb (Bool.eqb (isdigit ucd a) (isdigit ucd b)) then 1
  else if negb (Bool.eqb (char_in a punctuation) (char_in b punctuation))
  then 1 else 0.

(** The loop body of [_analyze_char_transitions], named. *)
Definition transitions_body (password : pystr) (i transitions : Z)
  : result Z :=
  a <- getitem password i ;;
  b <- getitem password (i + 1) ;;
  if isalpha ucd a && isalpha ucd b
  then
    if negb (Bool.eqb (isupper ucd a) (isupper ucd b))
    then Ok (transitions + 1)
    else Ok transitions
  else if negb (Bool.eqb (isdigit ucd a) (isdigit ucd b))
  then Ok (transitions + 1)
  else if negb (Bool.eqb (char_in a punctuation) (char_in b punctuation))
  then Ok (transitions + 1)
  else Ok transitions.

Definition in_punctuation (c : char) : bool := char_in c punctuation.

(** A pair counts as a transition: both characters are letters of differing
    case (exactly one of them is upper case), or exactly one is a digit, or
    exactly one is a punctuation character. *)
Definition counts_as_transition (a b : char) : bool :=
  (isalpha ucd a && isalpha ucd b && xorb (isupper ucd a) (isupper ucd b))
  || xorb (isdigit ucd a) (isdigit ucd b)
  || xorb (in_punctuation a) (in_punctuation b).

Definition adjacent_pairs (s : pystr) : list (char * char) :=
  combine s (tl s).

(** The number of adjacent pairs that count as a transition. *)
Definition transition_pairs (s : pystr) : Z :=
  len (filter (fun p => counts_as_transition (fst p) (snd p))
              (adjacent_pairs s)).

(** No character of the string is a letter and a digit at once.  (No
    character of Unicode is.) *)
Definition letters_are_not_digits (s : pystr) : bool :=
  forallb (fun c => negb (isalpha ucd c && isdigit ucd c)) s.

(** ** Character classes *)

(** A character outside the ASCII letters, digits and punctuation. *)
Definition outside_ascii_classes (c : char) : bool :=
  negb (char_in c ascii_letters) && negb (char_in c digits)
  && negb (char_in c punctuation).

(** A code point from U+0080 on that [str.isupper], [str.islower] and
    [str.isdigit] all reject. *)
Definition unicode_plain (c : char) : bool :=
  negb (uc_isupper ucd c) && negb (uc_islower ucd c)
  && negb (uc_isdigit ucd c).

End Vocabulary.

(** The sum of a function over the adjacent pairs of a string. *)
Fixpoint sum_pairs (f : char -> char -> Z) (s : pystr) : Z :=
  match s with
  | a :: (b :: _) as s' => f a b + sum_pairs f s'
  | _ => 0
  end.

Definition all_flags_false (m : Metrics.t) : Prop :=
  Metrics.has_uppercase m = Some false
  /\ Metrics.has_lowercase m = Some false
  /\ Metrics.has_digits m = Some false
  /\ Metrics.has_special m = Some false.

(** The sentence of the specification on characters outside the classes,
    for one table of Unicode properties: such characters set no flag. *)
Definition others_set_no_flag (ucd : UCD) : Prop :=
  forall (requests_get : http) (password username : pystr) (g g' : rng)
         (analysis : Analysis.t),
    forallb outside_ascii_classes password = true ->
    analyze_password ucd __init__ requests_get password username g
    = Ok (analysis, g') ->
    all_flags_false (Analysis.metrics analysis).

(** ** Entropy *)

(** The four classes with their alphabet sizes. *)
Definition class_table : list (pystr * Z) :=
  [ (ascii_lowercase, 26); (ascii_uppercase, 26); (digits, 10);
    (punctuation, 32) ].

(** A class is present when one of its members occurs in the password. *)
Definition class_present (cls password : pystr) : bool :=
  existsb (fun member => char_in member password) cls.

(** The pool size: the sizes of the present classes, added up. *)
Definition pool_size (password : pystr) : Z :=
  fold_right
    (fun '(cls, size) total =>
       (if class_present cls password then size else 0) + total)
    0 class_table.

Definition log2_real (x : Z) : R := (ln (IZR x) / ln 2)%R.

(** The entropy of the specification: the length times the binary
    logarithm of the pool size, and 0 for an empty pool. *)
Definition entropy_of (password : pystr) : R :=
  if pool_size password =? 0 then 0%R
  else (IZR (len password) * log2_real (pool_size password))%R.

(** ** Score and recommendations *)

Definition bonus (b : bool) : Z := if b then 10 else 0.

Definition penalty (amount : Z) (b : bool) : Z := if b then amount else 0.

Definition nonempty {A} (xs : list A) : bool :=
  match xs with [] => false | _ :: _ => true end.

Definition clamp (lo hi x : Z) : Z := Z.max lo (Z.min hi x).

(** The formula of the specification. *)
Definition score_formula (length : Z)
    (has_uppercase has_lowercase has_digits has_special : bool)
    (character_transitions : Q)
    (repeated_chars sequential_chars keyboard_pattern : bool)
    (weaknesses : list pystr) (breached : bool) : Z :=
  clamp 0 100
    (Z.min (length * 4) 40
     + bonus has_uppercase + bonus has_lowercase
     + bonus has_digits + bonus has_special
     + Qfloor (character_transitions * 10)
     - penalty 15 repeated_chars
     - penalty 15 sequential_chars
     - penalty 20 keyboard_pattern
     - penalty 20 (nonempty weaknesses)
     - penalty 30 breached).

(** A metrics dictionary with all its ten keys. *)
Definition full_metrics (length : Z)
    (has_uppercase has_lowercase has_digits has_special : bool)
    (repeated_chars sequential_chars keyboard_pattern : bool)
    (character_transitions : Q) (breached : bool) : Metrics.t :=
  {| Metrics.length := Some length;
     Metrics.has_uppercase := Some has_uppercase;
     Metrics.has_lowercase := Some has_lowercase;
     Metrics.has_digits := Some has_digits;
     Metrics.has_special := Some has_special;
     Metrics.repeated_chars := Some repeated_chars;
     Metrics.sequential_chars := Some sequential_chars;
     Metrics.keyboard_pattern := Some keyboard_pattern;
     Metrics.character_transitions := Some character_transitions;
     Metrics.breached := Some breached |}.

Definition recommendations_for (score length : Z)
    (up lo di sp br kb : bool) : list pystr :=
  (if score <? 60 then [rec_stronger] else [])
  ++ (if length <? 12 then [rec_length] else [])
  ++ (if up && lo && di && sp then [] else [rec_mix])
  ++ (if br then [rec_breach] else [])
  ++ (if kb then [rec_keyboard] else [])
  ++ [rec_passphrase].

(** The analysis of [password] for [username], given the outcome of the
    steps that can raise or that depend on the environment. *)
Definition analysis_of (ucd : UCD) (password username : pystr)
    (sequential_chars : bool) (character_transitions : Q) (entropy : R)
    (breached : bool) (suggested : list pystr) : Analysis.t :=
  let length := len password in
  let up := existsb (isupper ucd) password in
  let lo := existsb (islower ucd) password in
  let di := existsb (isdigit ucd) password in
  let sp := existsb (fun c => char_in c punctuation) password in
  let rep := _check_repeated_chars password in
  let kb := _check_keyboard_patterns ucd __init__ password in
  let weaknesses := _detect_weaknesses ucd __init__ password username in
  let score :=
    score_formula length up lo di sp character_transitions rep
      sequential_chars kb weaknesses breached in
  {| Analysis.strength_score := score;
     Analysis.entropy := entropy;
     Analysis.weaknesses := weaknesses;
     Analysis.recommendations :=
       recommendations_for score length up lo di sp breached kb;
     Analysis.metrics :=
       full_metrics length up lo di sp rep sequential_chars kb
         character_transitions breached;
     Analysis.suggested_passwords := suggested |}.

(** [analysed ucd requests_get password username g analysis g']: the
    steps of [analyze_password] that can raise or that read the
    environment have returned, and [analysis] is what they give. *)
Inductive analysed (ucd : UCD) (requests_get : http)
    (password username : pystr) (g : rng) : Analysis.t -> rng -> Prop :=
| analysed_intro (sq : bool) (ct : Q) (b : bool) (p : list pystr)
    (g' : rng) :
    _check_sequences password = Ok sq ->
    _analyze_char_transitions ucd password = Ok ct ->
    (0 <= ct <= 1)%Q ->
    _check_hibp_breach ucd requests_get password = Ok b ->
    _suggest_strong_passwords ucd g = Ok (p, g') ->
    analysed ucd requests_get password username g
      (analysis_of ucd password username sq ct (entropy_of password) b p)
      g'.

(** ** The breach lookup *)

(** The URL and the headers of the range query for the digest of
    [bytes]. *)
Definition range_url (ucd : UCD) (bytes : list N) : pystr :=
  str "https://api.pwnedpasswords.com/range/"
  ++ firstn 5 (upper ucd (SHA1.hexdigest bytes)).

Definition range_headers : list (pystr * pystr) :=
  [(str "User-Agent", str "PasswordAnalyzer/1.0")].

(** The lookup fails: the password cannot be encoded, or the request
    raises, or the response is not a success. *)
Definition lookup_fails (ucd : UCD) (requests_get : http)
    (password : pystr) : Prop :=
  match encode password with
  | Raise _ => True
  | Ok bytes =>
      match requests_get (range_url ucd bytes) range_headers with
      | Raise _ => True
      | Ok response => status_code response <> 200
      end
  end.

(** Two networks answer the range query for [password] alike. *)
Definition same_response (ucd : UCD) (net1 net2 : http)
    (password : pystr) : Prop :=
  match encode password with
  | Raise _ => True
  | Ok bytes =>
      net1 (range_url ucd bytes) range_headers
      = net2 (range_url ucd bytes) range_headers
  end.

(** ** Weaknesses *)

(** The five detectors in their fixed order, each with its message. *)
Definition detectors (ucd : UCD) (password username : pystr)
  : list (bool * pystr) :=
  [ (str_in (lower ucd password) (common_passwords __init__), msg_common);
    (_check_keyboard_patterns ucd __init__ password, msg_keyboard);
    (truthy username
     && contains (lower ucd password) (lower ucd username), msg_username);
    (_has_dictionary_patterns ucd password, msg_dictionary);
    (_check_date_patterns ucd password, msg_date) ].

(** The messages of the detectors that fire, in order. *)
Definition fired (ds : list (bool * pystr)) : list pystr :=
  map snd (filter fst ds).

(** ** Suggestions *)

Definition alphabet : pystr := ascii_letters ++ digits ++ punctuation.

(** The random source after one draw. *)
Definition advance (g : rng) : rng :=
  {| supply := supply g; pos := S (pos g) |}.

(** ** Sample inputs *)

(** A network that is down, one that answers 503, and one that answers
    with a range holding the suffix of the digest of "password". *)
Definition net_down : http := fun _ _ => Raise (RequestException 0).

Definition net_503 : http :=
  fun _ _ => Ok {| status_code := 503; text := [] |}.

Definition net_pwned : http :=
  fun _ _ =>
    Ok {| status_code := 200;
          text := str "0018A45C4D1DEF81644B54AB7F969B88D65:10"
                    ++ [13; 10]%N
                    ++ str "1E4C9B93F3F0682250B6CF8331B7EE68FD8:52256179" |}.

Definition rng_a : rng :=
  {| supply := fun n => N.of_nat (7 * n + 3); pos := 0 |}.

Definition rng_b : rng :=
  {| supply := fun n => N.of_nat (11 * n + 5); pos := 0 |}.

(** The password made of the one character U+00C9, a capital E with an
    acute accent. *)
Definition e_acute : pystr := [201%N].

(** ** IEEE doubles

    The transition ratio is a [float] in Python.  The three definitions
    below compute [int(t / n * 10)] on binary64 numbers, to be compared
    with the exact computation of the model. *)

Definition float_of_int (z : Z) : PrimFloat.float :=
  PrimFloat.of_uint63 (Uint63.of_Z z).

Definition float_int (f : PrimFloat.float) : Z :=
  match FloatOps.Prim2SF f with
  | SpecFloat.S754_finite s m e =>
      let v := if 0 <=? e then Zpos m * 2 ^ e else Zpos m / 2 ^ (- e) in
      if s then - v else v
  | _ => 0
  end.

Definition float_score_term (t n : Z) : Z :=
  float_int
    (PrimFloat.mul (PrimFloat.div (float_of_int t) (float_of_int n))
                   (float_of_int 10)).

Definition exact_score_term (t n : Z) : Z :=
  match truediv t n with
  | Ok q => int (q * 10)%Q
  | Raise _ => -1
  end.

(** ** Further vocabulary

    Names for the properties at the end of the file. *)

(** Three characters with consecutive code points at the head of a string,
    or further on. *)
Fixpoint run3 (s : pystr) : bool :=
  match s with
  | a :: (b :: c :: _) as s' =>
      (N.eqb b (a + 1) && N.eqb c (b + 1)) || run3 s'
  | _ => false
  end.

(** The loop body of [_check_sequences], named. *)
Definition sequences_body (password : pystr) (i : Z) : result bool :=
  c1 <- getitem password (i + 1) ;;
  c0 <- getitem password i ;;
  if ord c1 =? ord c0 + 1
  then
    c2 <- getitem password (i + 2) ;;
    c1' <- getitem password (i + 1) ;;
    Ok (ord c2 =? ord c1' + 1)
  else Ok false.

(** What the ten substitutions of [_has_dictionary_patterns] do to one
    character: the first entry of [common_subs] for it, if any. *)
Definition leet (c : char) : char :=
  match find (fun p => N.eqb c (fst p)) common_subs with
  | Some (_, target) => target
  | None => c
  end.

(** The substitutions applied in turn to one character. *)
Definition substitute_char (subs : list (char * char)) (c : char) : char :=
  fold_left (fun c '(sub, target) => if N.eqb c sub then target else c)
            subs c.

(** The separators of the date patterns. *)
Definition is_date_separator (c : char) : Prop := c = ch "/" \/ c = ch "-".

(** The colours of [main]: the constants of [colorama.Fore] it prints
    with. *)
Inductive color : Type := GREEN | YELLOW | RED.

(** The colour [main] prints the score in. *)
Definition score_color (score : Z) : color :=
  if score >=? 80 then GREEN else if score >=? 60 then YELLOW else RED.

(** The advice of [_generate_recommendations], in its order. *)
Definition all_recommendations : list pystr :=
  [rec_stronger; rec_length; rec_mix; rec_breach; rec_keyboard;
   rec_passphrase].

(** A metrics dictionary holds all ten keys (listed in the order in which
    [_calculate_strength_score] reads them). *)
Definition complete (m : Metrics.t) : bool :=
  let some {A} (o : option A) :=
    match o with Some _ => true | None => false end in
  some (Metrics.length m) && some (Metrics.has_uppercase m)
  && some (Metrics.has_lowercase m) && some (Metrics.has_digits m)
  && some (Metrics.has_special m) && some (Metrics.character_transitions m)
  && some (Metrics.repeated_chars m) && some (Metrics.sequential_chars m)
  && some (Metrics.keyboard_pattern m) && some (Metrics.breached m).

(** The part of a string before the first occurrence of a character. *)
Fixpoint before (c : char) (s : pystr) : pystr :=
  match s with
  | [] => []
  | x :: s' => if N.eqb x c then [] else x :: before c s'
  end.

Definition hex_digits : pystr := str "0123456789abcdef".

Definition hex_digits_upper : pystr := str "0123456789ABCDEF".

(** The upper-case hexadecimal digest that [_check_hibp_breach] splits
    into a prefix and a suffix. *)
Definition sha1_upper (ucd : UCD) (bytes : list N) : pystr :=
  upper ucd (SHA1.hexdigest bytes).

(** A random source whose raw numbers are those of a list, then 0. *)
Definition rng_of (raw : list nat) (start : nat) : rng :=
  {| supply := fun k => N.of_nat (nth k raw 0%nat); pos := start |}.

(** * Lemmas *)

(** Case analysis on every condition of the goal. *)
Ltac case_ifs :=
  repeat match goal with
         | |- context [if ?b then _ else _] => destruct b
         end.


Lemma Ok_inj {A} (a b : A) : Ok a = Ok b -> a = b.
Proof. intros H. now injection H. Qed.

(** * Reading a string by index *)

Lemma getitem_nat (s : pystr) (i : nat) (c : char) :
  nth_error s i = Some c -> getitem s (Z.of_nat i) = Ok c.
Proof.
  intros H. unfold getitem.
  destruct (Z.of_nat i <? 0) eqn:E; [apply Z.ltb_lt in E; lia|].
  rewrite E, Nat2Z.id, H. reflexivity.
Qed.

Lemma getitem_app (pre rest : pystr) (k : nat) (c : char) :
  nth_error rest k = Some c ->
  getitem (pre ++ rest) (Z.of_nat (List.length pre + k)) = Ok c.
Proof.
  intros H. apply getitem_nat.
  rewrite nth_error_app2 by lia.
  replace (List.length pre + k - List.length pre)%nat with k by lia.
  exact H.
Qed.

Lemma range_len_minus (s : pystr) (k : nat) (z : Z) :
  z = Z.of_nat k ->
  range (len s - z) = map Z.of_nat (seq 0 (List.length s - k)).
Proof.
  intros ->. unfold range, len. f_equal. f_equal. lia.
Qed.

(** * The transition count *)

Section Transitions.

Variable ucd : UCD.

Lemma transitions_body_step (password : pystr) (i : nat) (a b : char)
    (acc : Z) :
  nth_error password i = Some a ->
  nth_error password (S i) = Some b ->
  transitions_body ucd password (Z.of_nat i) acc
  = Ok (acc + pair_step ucd a b).
Proof.
  intros Ha Hb. unfold transitions_body, pair_step.
  rewrite (getitem_nat _ _ _ Ha). cbn [bind].
  replace (Z.of_nat i + 1) with (Z.of_nat (S i)) by lia.
  rewrite (getitem_nat _ _ _ Hb). cbn [bind].
  case_ifs;
    f_equal; lia.
Qed.

Lemma transitions_loop (rest pre : pystr) (acc : Z) :
  for_acc (transitions_body ucd (pre ++ rest))
          (map Z.of_nat (seq (List.length pre) (List.length rest - 1))) acc
  = Ok (acc + sum_pairs (pair_step ucd) rest).
Proof.
  revert pre acc.
  induction rest as [|a rest IH]; intros pre acc.
  - cbn. f_equal. lia.
  - destruct rest as [|b rest].
    + cbn. f_equal. lia.
    + replace (List.length (a :: b :: rest) - 1)%nat
        with (S (List.length rest)) by (cbn; lia).
      cbn [seq map for_acc].
      rewrite (transitions_body_step _ _ a b).
      * cbn [bind].
        specialize (IH (pre ++ [a]) (acc + pair_step ucd a b)).
        rewrite <- app_assoc in IH. cbn [app] in IH.
        rewrite length_app in IH. cbn [List.length] in IH.
        replace (List.length pre + 1)%nat with (S (List.length pre)) in IH
          by lia.
        replace (S (List.length rest) - 1)%nat with (List.length rest) in IH
          by lia.
        rewrite IH.
        change (sum_pairs (pair_step ucd) (a :: b :: rest))
          with (pair_step ucd a b + sum_pairs (pair_step ucd) (b :: rest)).
        f_equal. lia.
      * rewrite nth_error_app2 by lia. now rewrite Nat.sub_diag.
      * rewrite nth_error_app2 by lia.
        now replace (S (List.length pre) - List.length pre)%nat with 1%nat
          by lia.
Qed.

Lemma sum_pairs_bounds (f : char -> char -> Z) (s : pystr) :
  (forall a b, 0 <= f a b <= 1) ->
  0 <= sum_pairs f s <= Z.max 0 (len s - 1).
Proof.
  intros Hf. unfold len.
  induction s as [|a s IH]; [cbn; lia|].
  destruct s as [|b s]; [cbn; lia|].
  change (sum_pairs f (a :: b :: s)) with (f a b + sum_pairs f (b :: s)).
  specialize (Hf a b). cbn [List.length] in *. lia.
Qed.

Lemma pair_step_bounds (a b : char) : 0 <= pair_step ucd a b <= 1.
Proof.
  unfold pair_step.
  case_ifs;
    lia.
Qed.

Lemma analyze_char_transitions_eq (password : pystr) :
  _analyze_char_transitions ucd password
  = if len password <? 2 then Ok 1%Q
    else truediv (sum_pairs (pair_step ucd) password) (len password - 1).
Proof.
  unfold _analyze_char_transitions.
  destruct (len password <? 2); [reflexivity|].
  rewrite (range_len_minus password 1) by reflexivity.
  pose proof (transitions_loop password [] 0) as H.
  cbn [app List.length] in H.
  unfold transitions_body in H. rewrite H. reflexivity.
Qed.

End Transitions.



(** * Exact quotients *)

Lemma truediv_ok (a b : Z) :
  b <> 0 -> truediv a b = Ok (Qred (inject_Z a / inject_Z b)).
Proof.
  intros Hb. unfold truediv.
  destruct (b =? 0) eqn:E; [apply Z.eqb_eq in E; contradiction|reflexivity].
Qed.

Lemma ratio_bounds (a b : Z) :
  0 < b -> 0 <= a <= b ->
  (0 <= Qred (inject_Z a / inject_Z b) <= 1)%Q.
Proof.
  intros Hb [Ha Hab].
  assert (Hb' : (0 < inject_Z b)%Q) by (unfold Qlt; cbn; lia).
  rewrite Qred_correct. split.
  - apply Qle_shift_div_l; [exact Hb'|].
    rewrite Qmult_0_l. unfold Qle; cbn; lia.
  - apply Qle_shift_div_r; [exact Hb'|].
    rewrite Qmult_1_l. unfold Qle; cbn; lia.
Qed.

Lemma int_nonneg (q : Q) : (0 <= q)%Q -> int q = Qfloor q.
Proof.
  intros H. unfold int.
  destruct (Qle_bool 0 q) eqn:E; [reflexivity|].
  apply Qle_bool_iff in H. congruence.
Qed.

Lemma floor_times_ten (q : Q) :
  (0 <= q <= 1)%Q -> 0 <= Qfloor (q * 10) <= 10.
Proof.
  intros [H0 H1]. split.
  - change 0 with (Qfloor 0). apply Qfloor_resp_le.
    apply Qmult_le_0_compat; [exact H0|discriminate].
  - change 10 with (Qfloor 10) at 2. apply Qfloor_resp_le.
    setoid_replace (10 : Q) with (1 * 10)%Q at 2 by reflexivity.
    apply Qmult_le_compat_r; [exact H1|discriminate].
Qed.

Lemma int_times_ten (q : Q) :
  (0 <= q <= 1)%Q -> int (q * 10) = Qfloor (q * 10).
Proof.
  intros [H0 _]. apply int_nonneg.
  apply Qmult_le_0_compat; [exact H0|discriminate].
Qed.

(** * The rational model against IEEE doubles *)

(** For every ratio [t / n] with [0 <= t <= n <= 64], the score term
    computed on binary64 numbers is the one computed on exact rationals. *)
Lemma float_score_term_exact :
  forallb
    (fun n =>
       forallb (fun t => float_score_term t (n + 1)
                         =? exact_score_term t (n + 1))
               (range (n + 2)))
    (range 64)
  = true.
Proof. vm_compute. reflexivity. Qed.

(** * Totality and range of the transition ratio *)

Lemma analyze_char_transitions_total (ucd : UCD) (password : pystr) :
  exists ratio,
    _analyze_char_transitions ucd password = Ok ratio
    /\ (0 <= ratio <= 1)%Q.
Proof.
  rewrite analyze_char_transitions_eq.
  destruct (len password <? 2) eqn:E.
  - exists 1%Q. split; [reflexivity|]. split; discriminate.
  - apply Z.ltb_ge in E.
    pose proof (sum_pairs_bounds (pair_step ucd) password
                  (pair_step_bounds ucd)) as B.
    rewrite truediv_ok by lia.
    eexists. split; [reflexivity|].
    apply ratio_bounds; lia.
Qed.

(** * The pairs that count, as the specification words them *)

Lemma char_in_In (c : char) (s : pystr) :
  char_in c s = true <-> In c s.
Proof.
  unfold char_in. rewrite existsb_exists. split.
  - intros [x [Hx E]]. apply N.eqb_eq in E. now subst.
  - intros H. exists c. split; [exact H|apply N.eqb_refl].
Qed.

Lemma punctuation_not_alpha (ucd : UCD) (c : char) :
  char_in c punctuation = true -> isalpha ucd c = false.
Proof.
  intros H. apply char_in_In in H. cbv in H.
  repeat (destruct H as [<-|H]; [reflexivity|]). contradiction.
Qed.

Lemma pair_step_counts (ucd : UCD) (a b : char) :
  negb (isalpha ucd a && isdigit ucd a) = true ->
  negb (isalpha ucd b && isdigit ucd b) = true ->
  pair_step ucd a b = if counts_as_transition ucd a b then 1 else 0.
Proof.
  intros Ha Hb. unfold pair_step, counts_as_transition, in_punctuation.
  pose proof (punctuation_not_alpha ucd a) as Pa.
  pose proof (punctuation_not_alpha ucd b) as Pb.
  destruct (isalpha ucd a), (isalpha ucd b),
    (isupper ucd a), (isupper ucd b),
    (isdigit ucd a), (isdigit ucd b),
    (char_in a punctuation), (char_in b punctuation);
    cbn in *; try reflexivity; try discriminate;
    try (specialize (Pa eq_refl); discriminate);
    try (specialize (Pb eq_refl); discriminate).
Qed.

Lemma sum_pairs_ext (f g : char -> char -> Z) (s : pystr) :
  (forall a b, In a s -> In b s -> f a b = g a b) ->
  sum_pairs f s = sum_pairs g s.
Proof.
  induction s as [|a s IH]; intros H; [reflexivity|].
  destruct s as [|b s]; [reflexivity|].
  change (sum_pairs f (a :: b :: s)) with (f a b + sum_pairs f (b :: s)).
  change (sum_pairs g (a :: b :: s)) with (g a b + sum_pairs g (b :: s)).
  rewrite IH, (H a b); try reflexivity; cbn; auto.
  intros x y Hx Hy. apply H; right; assumption.
Qed.

Lemma sum_pairs_indicator (P : char -> char -> bool) (s : pystr) :
  sum_pairs (fun a b => if P a b then 1 else 0) s
  = len (filter (fun p => P (fst p) (snd p)) (adjacent_pairs s)).
Proof.
  unfold adjacent_pairs, len.
  induction s as [|a s IH]; [reflexivity|].
  destruct s as [|b s]; [reflexivity|].
  change (sum_pairs (fun a b => if P a b then 1 else 0) (a :: b :: s))
    with ((if P a b then 1 else 0)
          + sum_pairs (fun a b => if P a b then 1 else 0) (b :: s)).
  rewrite IH. cbn [tl combine filter fst snd].
  destruct (P a b); cbn [List.length]; lia.
Qed.

Lemma sum_pairs_transition_pairs (ucd : UCD) (s : pystr) :
  letters_are_not_digits ucd s = true ->
  sum_pairs (pair_step ucd) s = transition_pairs ucd s.
Proof.
  intros H. unfold transition_pairs.
  rewrite <- sum_pairs_indicator.
  apply sum_pairs_ext. intros a b Ha Hb.
  unfold letters_are_not_digits in H. rewrite forallb_forall in H.
  apply pair_step_counts; apply H; assumption.
Qed.



(** * Loops whose body cannot raise *)

Lemma for_return_true_total (test : Z -> result bool) (idx : list Z) :
  (forall i, In i idx -> exists b, test i = Ok b) ->
  exists b, for_return_true test idx = Ok b.
Proof.
  induction idx as [|i idx IH]; intros H.
  - exists false. reflexivity.
  - destruct (H i (or_introl eq_refl)) as [b Hb].
    cbn [for_return_true]. rewrite Hb. cbn [bind].
    destruct b; [exists true; reflexivity|].
    apply IH. intros j Hj. apply H. right. exact Hj.
Qed.

Lemma for_in_return_true_total {A} (test : A -> result bool) (xs : list A) :
  (forall x, In x xs -> exists b, test x = Ok b) ->
  exists b, for_in_return_true test xs = Ok b.
Proof.
  induction xs as [|x xs IH]; intros H.
  - exists false. reflexivity.
  - destruct (H x (or_introl eq_refl)) as [b Hb].
    cbn [for_in_return_true]. rewrite Hb. cbn [bind].
    destruct b; [exists true; reflexivity|].
    apply IH. intros j Hj. apply H. right. exact Hj.
Qed.

Lemma getitem_in_range (s : pystr) (i : Z) :
  0 <= i < len s -> exists c, getitem s i = Ok c.
Proof.
  intros [H0 H1]. unfold len in H1.
  destruct (nth_error s (Z.to_nat i)) as [c|] eqn:E.
  - exists c. rewrite <- (Z2Nat.id i) by exact H0.
    apply getitem_nat. exact E.
  - apply nth_error_None in E. lia.
Qed.

Lemma In_range (n i : Z) : In i (range n) -> 0 <= i < n.
Proof.
  unfold range. rewrite in_map_iff. intros [k [<- Hk]].
  apply in_seq in Hk. lia.
Qed.

Lemma length_range (n : Z) : List.length (range n) = Z.to_nat n.
Proof. unfold range. now rewrite length_map, length_seq. Qed.

Lemma check_sequences_total (password : pystr) :
  exists b, _check_sequences password = Ok b.
Proof.
  unfold _check_sequences. apply for_return_true_total.
  intros i Hi. apply In_range in Hi.
  destruct (getitem_in_range password (i + 1)) as [c1 H1]; [lia|].
  destruct (getitem_in_range password i) as [c0 H0]; [lia|].
  destruct (getitem_in_range password (i + 2)) as [c2 H2]; [lia|].
  rewrite H1, H0. cbn [bind].
  destruct (ord c1 =? ord c0 + 1).
  - rewrite H2. cbn [bind]. eexists. reflexivity.
  - eexists. reflexivity.
Qed.

(** * The breach lookup never raises *)

Lemma check_hibp_breach_total (ucd : UCD) (requests_get : http)
    (password : pystr) :
  exists b, _check_hibp_breach ucd requests_get password = Ok b.
Proof.
  unfold _check_hibp_breach.
  match goal with |- exists b, try_except ?body _ = _ =>
    destruct body as [b|e] end.
  - exists b. reflexivity.
  - exists false. reflexivity.
Qed.

(** * Random draws *)

Lemma randbelow_ok (n : Z) (g : rng) :
  0 < n ->
  exists i, randbelow n g = Ok (i, advance g) /\ 0 <= i < n.
Proof.
  intros Hn. unfold randbelow.
  destruct (n <=? 0) eqn:E; [apply Z.leb_le in E; lia|].
  eexists. split; [reflexivity|]. apply Z.mod_pos_bound. exact Hn.
Qed.

Lemma choice_ok {A} (xs : list A) (g : rng) :
  xs <> [] ->
  exists x, choice xs g = Ok (x, advance g) /\ In x xs.
Proof.
  intros Hxs. unfold choice.
  destruct xs as [|x0 xs']; [contradiction|].
  destruct (randbelow_ok (len (x0 :: xs')) g) as [i [Hi Hr]].
  { unfold len. cbn [List.length]. lia. }
  rewrite Hi. eexists. split; [reflexivity|].
  apply nth_In. unfold len in Hr. lia.
Qed.

Lemma for_gen_total {A} (body : Z -> gen A) (P : A -> Prop)
    (idx : list Z) (g : rng) :
  (forall i g, exists x g', body i g = Ok (x, g') /\ P x) ->
  exists xs g',
    for_gen body idx g = Ok (xs, g')
    /\ List.length xs = List.length idx
    /\ Forall P xs.
Proof.
  intros Hbody. revert g.
  induction idx as [|i idx IH]; intros g.
  - exists [], g. repeat split. constructor.
  - destruct (Hbody i g) as [x [g1 [Hx Px]]].
    destruct (IH g1) as [xs [g2 [Hxs [Hlen HP]]]].
    exists (x :: xs), g2.
    cbn [for_gen]. unfold bindg at 1. rewrite Hx.
    unfold bindg at 1. rewrite Hxs. unfold ret.
    repeat split; [cbn; lia|constructor; assumption].
Qed.

(** * [generate_secure_password] *)

Lemma In_chars (s : pystr) (x : pystr) :
  In x (chars s) <-> exists c, x = [c] /\ In c s.
Proof.
  unfold chars. rewrite in_map_iff. split.
  - intros [c [<- Hc]]. now exists c.
  - intros [c [-> Hc]]. now exists c.
Qed.

Lemma chars_nonempty (s : pystr) : s <> [] -> chars s <> [].
Proof. destruct s; [contradiction|discriminate]. Qed.

Lemma join_singletons (s : pystr) (picks : list pystr) :
  Forall (fun x => exists c, x = [c] /\ In c s) picks ->
  List.length (join picks) = List.length picks
  /\ Forall (fun c => In c s) (join picks).
Proof.
  unfold join. induction 1 as [|x picks [c [-> Hc]] _ [IHl IHf]].
  - split; [reflexivity|constructor].
  - cbn. split; [now rewrite IHl|constructor; assumption].
Qed.

Lemma generate_secure_password_spec (length : Z) (g : rng) :
  exists s g',
    generate_secure_password length g = Ok (s, g')
    /\ len s = Z.max 0 length
    /\ Forall (fun c => In c alphabet) s.
Proof.
  unfold generate_secure_password. fold alphabet.
  destruct (for_gen_total (fun _ => choice (chars alphabet))
              (fun x => exists c, x = [c] /\ In c alphabet)
              (range length) g) as [picks [g' [Hp [Hlen HP]]]].
  { intros _ g0.
    destruct (choice_ok (chars alphabet) g0) as [x [Hx Hin]].
    - apply chars_nonempty. discriminate.
    - exists x, (advance g0). split; [exact Hx|]. now apply In_chars. }
  exists (join picks), g'.
  unfold bindg. rewrite Hp. unfold ret.
  destruct (join_singletons alphabet picks HP) as [Hl Hf].
  repeat split; [|exact Hf].
  unfold len. rewrite Hl, Hlen, length_range. lia.
Qed.



(** * Entropy *)

Lemma existsb_swap (s t : pystr) :
  existsb (fun c => char_in c t) s = existsb (fun m => char_in m s) t.
Proof.
  apply eq_true_iff_eq. rewrite !existsb_exists. split.
  - intros [c [Hc Hin]]. exists c. split.
    + now apply char_in_In.
    + now apply char_in_In.
  - intros [c [Hc Hin]]. exists c. split.
    + now apply char_in_In.
    + now apply char_in_In.
Qed.

Lemma char_pool_eq (password : pystr) :
  fold_left
    (fun char_pool char_set =>
       if existsb (fun c => char_in c char_set) password
       then char_pool + len char_set
       else char_pool)
    (values (char_sets __init__)) 0
  = pool_size password.
Proof.
  unfold pool_size, class_table, class_present.
  change (values (char_sets __init__))
    with [ascii_lowercase; ascii_uppercase; digits; punctuation].
  cbn [fold_left fold_right].
  rewrite !(existsb_swap password).
  change (len ascii_lowercase) with 26.
  change (len ascii_uppercase) with 26.
  change (len digits) with 10.
  change (len punctuation) with 32.
  case_ifs;
    reflexivity.
Qed.

Lemma pool_size_range (password : pystr) :
  pool_size password = 0 \/ 10 <= pool_size password <= 94.
Proof.
  unfold pool_size, class_table. cbn [fold_right].
  case_ifs;
    lia.
Qed.

Lemma calculate_entropy_eq (password : pystr) :
  _calculate_entropy __init__ password = Ok (entropy_of password).
Proof.
  unfold _calculate_entropy, entropy_of. rewrite char_pool_eq.
  destruct (pool_size password =? 0) eqn:E; [reflexivity|].
  apply Z.eqb_neq in E. unfold log2.
  destruct (pool_size_range password) as [H|H]; [contradiction|].
  destruct (pool_size password <=? 0) eqn:E'; [apply Z.leb_le in E'; lia|].
  reflexivity.
Qed.

Lemma ln_2_pos : (0 < ln 2)%R.
Proof. rewrite <- ln_1. apply ln_increasing; lra. Qed.

Lemma log2_real_nonneg (x : Z) : 1 <= x -> (0 <= log2_real x)%R.
Proof.
  intros H. unfold log2_real.
  apply Rmult_le_pos.
  - apply IZR_le in H. destruct H as [H|H].
    + left. rewrite <- ln_1. apply ln_increasing; [lra|exact H].
    + rewrite <- H, ln_1. lra.
  - left. apply Rinv_0_lt_compat. exact ln_2_pos.
Qed.

Lemma entropy_nonneg (password : pystr) : (0 <= entropy_of password)%R.
Proof.
  unfold entropy_of.
  destruct (pool_size password =? 0) eqn:E; [lra|].
  apply Z.eqb_neq in E.
  apply Rmult_le_pos.
  - apply IZR_le. unfold len. lia.
  - apply log2_real_nonneg.
    destruct (pool_size_range password) as [H|H]; [contradiction|lia].
Qed.

(** * The score *)

Lemma calculate_strength_score_eq (analysis : Analysis.t) (length : Z)
    (up lo di sp rep sq kb : bool) (ct : Q) (br : bool) :
  Analysis.metrics analysis = full_metrics length up lo di sp rep sq kb ct br ->
  (0 <= ct <= 1)%Q ->
  _calculate_strength_score analysis
  = Ok (score_formula length up lo di sp ct rep sq kb
          (Analysis.weaknesses analysis) br).
Proof.
  intros Hm Hct. unfold _calculate_strength_score.
  rewrite Hm. unfold Metrics.get, full_metrics. cbn [bind
    Metrics.length Metrics.has_uppercase Metrics.has_lowercase
    Metrics.has_digits Metrics.has_special Metrics.repeated_chars
    Metrics.sequential_chars Metrics.keyboard_pattern
    Metrics.character_transitions Metrics.breached].
  rewrite (int_times_ten ct Hct).
  unfold score_formula, clamp, bonus, penalty, nonempty.
  f_equal. f_equal. f_equal.
  destruct up, lo, di, sp, rep, sq, kb, br,
    (Analysis.weaknesses analysis); lia.
Qed.

Lemma score_formula_range (length : Z) (up lo di sp : bool) (ct : Q)
    (rep sq kb : bool) (w : list pystr) (br : bool) :
  0 <= score_formula length up lo di sp ct rep sq kb w br <= 100.
Proof. unfold score_formula, clamp. lia. Qed.

Lemma score_formula_le_90 (length : Z) (up lo di sp : bool) (ct : Q)
    (rep sq kb : bool) (w : list pystr) (br : bool) :
  (0 <= ct <= 1)%Q ->
  score_formula length up lo di sp ct rep sq kb w br <= 90.
Proof.
  intros Hct. pose proof (floor_times_ten ct Hct) as F.
  unfold score_formula, clamp, bonus, penalty.
  destruct up, lo, di, sp, rep, sq, kb, br, (nonempty w); lia.
Qed.



(** * Recommendations *)

Lemma generate_recommendations_eq (analysis : Analysis.t) (length : Z)
    (up lo di sp rep sq kb : bool) (ct : Q) (br : bool) :
  Analysis.metrics analysis = full_metrics length up lo di sp rep sq kb ct br ->
  _generate_recommendations analysis
  = Ok (recommendations_for (Analysis.strength_score analysis) length
          up lo di sp br kb).
Proof.
  intros Hm. unfold _generate_recommendations.
  rewrite Hm. unfold Metrics.get, full_metrics. cbn [bind
    Metrics.length Metrics.has_uppercase Metrics.has_lowercase
    Metrics.has_digits Metrics.has_special Metrics.repeated_chars
    Metrics.sequential_chars Metrics.keyboard_pattern
    Metrics.character_transitions Metrics.breached].
  unfold recommendations_for, append_if.
  destruct (Analysis.strength_score analysis <? 60), (length <? 12),
    up, lo, di, sp, br, kb; reflexivity.
Qed.

(** * Suggestions never raise *)

Lemma bindg_ok {A B} (m : gen A) (k : A -> gen B) (g g' : rng) (a : A) :
  m g = Ok (a, g') -> bindg m k g = k a g'.
Proof. intros H. unfold bindg. now rewrite H. Qed.

Lemma bindg_lift {A B} (m : result A) (k : A -> gen B) (g : rng) (a : A) :
  m = Ok a -> bindg (lift m) k g = k a g.
Proof. intros ->. reflexivity. Qed.

(** Rewrite a bind whose first step is known to return. *)
Ltac step H :=
  first [ rewrite (bindg_ok _ _ _ _ _ H)
        | rewrite (bindg_lift _ _ _ _ H) ].

Lemma suggest_strong_passwords_total (ucd : UCD) (g : rng) :
  exists p g',
    _suggest_strong_passwords ucd g = Ok (p, g') /\ List.length p = 3%nat.
Proof.
  unfold _suggest_strong_passwords.
  destruct (generate_secure_password_spec 16 g) as [s1 [g1 [H1 _]]].
  step H1.
  destruct (for_gen_total
              (fun _ => w <~ choice words ;; ret (capitalize ucd w))
              (fun _ => True) (range 4) g1) as [caps [g2 [H2 _]]].
  { intros _ g0.
    destruct (choice_ok words g0) as [w [Hw _]]; [discriminate|].
    eexists _, _. step Hw. now split. }
  step H2.
  destruct (randbelow_ok 100 g2) as [n [H3 _]]; [lia|].
  step H3.
  destruct (choice_ok (chars ascii_uppercase) (advance g2))
    as [c1 [H4 _]]; [discriminate|].
  step H4.
  destruct (choice_ok (chars (repeat_str ascii_lowercase 5))
              (advance (advance g2))) as [c2 [H5 _]]; [discriminate|].
  step H5.
  destruct (choice_ok (chars (repeat_str digits 3))
              (advance (advance (advance g2))))
    as [c3 [H6 _]]; [discriminate|].
  step H6.
  destruct (choice_ok (chars (repeat_str punctuation 2))
              (advance (advance (advance (advance g2)))))
    as [c4 [H7 _]]; [discriminate|].
  step H7.
  destruct (for_gen_total (fun _ => choice (chars printable))
              (fun _ => True) (range 10)
              (advance (advance (advance (advance (advance g2))))))
    as [rest [g3 [H8 _]]].
  { intros _ g0.
    destruct (choice_ok (chars printable) g0) as [x [Hx _]];
      [discriminate|].
    eexists _, _. split; [exact Hx|exact I]. }
  step H8.
  eexists _, _. split; reflexivity.
Qed.

(** * The shape of an analysis *)

Lemma evaluate_strength_eq (ucd : UCD) (password : pystr) (sq : bool)
    (ct : Q) :
  _check_sequences password = Ok sq ->
  _analyze_char_transitions ucd password = Ok ct ->
  _evaluate_strength ucd __init__ password
  = Ok {| Metrics.length := Some (len password);
          Metrics.has_uppercase := Some (existsb (isupper ucd) password);
          Metrics.has_lowercase := Some (existsb (islower ucd) password);
          Metrics.has_digits := Some (existsb (isdigit ucd) password);
          Metrics.has_special :=
            Some (existsb (fun c => char_in c punctuation) password);
          Metrics.repeated_chars := Some (_check_repeated_chars password);
          Metrics.sequential_chars := Some sq;
          Metrics.keyboard_pattern :=
            Some (_check_keyboard_patterns ucd __init__ password);
          Metrics.character_transitions := Some ct;
          Metrics.breached := None |}.
Proof.
  intros Hsq Hct. unfold _evaluate_strength. rewrite Hsq, Hct. reflexivity.
Qed.

(** The analysis returns, and what it returns is [analysis_of] the outcome
    of its steps. *)
Lemma analyze_password_shape (ucd : UCD) (requests_get : http)
    (password username : pystr) (g : rng) :
  exists analysis g',
    analyze_password ucd __init__ requests_get password username g
    = Ok (analysis, g')
    /\ analysed ucd requests_get password username g analysis g'.
Proof.
  destruct (check_sequences_total password) as [sq Hsq].
  destruct (analyze_char_transitions_total ucd password) as [ct [Hct Hb]].
  destruct (check_hibp_breach_total ucd requests_get password) as [b Hbr].
  destruct (suggest_strong_passwords_total ucd g) as [p [g' [Hp _]]].
  eexists _, g'. split; [|exact (analysed_intro _ _ _ _ _ _ _ _ _ _
                                  Hsq Hct Hb Hbr Hp)].
  unfold analyze_password.
  step (evaluate_strength_eq ucd password sq ct Hsq Hct).
  step (calculate_entropy_eq password).
  step Hbr.
  erewrite bindg_lift.
  2:{ apply calculate_strength_score_eq with (1 := eq_refl). exact Hb. }
  erewrite bindg_lift.
  2:{ apply generate_recommendations_eq with (1 := eq_refl). }
  step Hp.
  reflexivity.
Qed.

(** The analysis returns a result whatever the network does. *)
Lemma analyze_password_total (ucd : UCD) (requests_get : http)
    (password username : pystr) (g : rng) :
  exists analysis g',
    analyze_password ucd __init__ requests_get password username g
    = Ok (analysis, g').
Proof.
  destruct (analyze_password_shape ucd requests_get password username g)
    as (analysis & g' & H & _).
  now exists analysis, g'.
Qed.

(** * Sample evaluations *)

Example sha1_of_password :
  SHA1.hexdigest (str "password")
  = str "5baa61e4c9b93f3f0682250b6cf8331b7ee68fd8".
Proof. vm_compute. reflexivity. Qed.

Example utf8_of_e_acute : encode e_acute = Ok [195; 137]%N.
Proof. reflexivity. Qed.

Example repeated_chars_aaaa : _check_repeated_chars (str "aaaa") = true.
Proof. reflexivity. Qed.

Example sequential_chars_abc123 : _check_sequences (str "abc123") = Ok true.
Proof. reflexivity. Qed.

Example keyboard_pattern_qwerty123 :
  _check_keyboard_patterns latin1 __init__ (str "qwerty123") = true
  /\ _detect_weaknesses latin1 __init__ (str "qwerty123") []
     = [msg_keyboard].
Proof. split; vm_compute; reflexivity. Qed.

Example weaknesses_of_password :
  _detect_weaknesses latin1 __init__ (str "password") []
  = [msg_common; msg_dictionary].
Proof. vm_compute. reflexivity. Qed.

Example weaknesses_of_johnSmith99 :
  _detect_weaknesses latin1 __init__ (str "johnSmith99") (str "john")
  = [msg_username].
Proof. vm_compute. reflexivity. Qed.

Example date_pattern_found :
  _check_date_patterns latin1 (str "born12/05/99") = true
  /\ _check_date_patterns latin1 (str "born12.05.99") = false.
Proof. split; vm_compute; reflexivity. Qed.

Example breach_lookup_finds_password :
  _check_hibp_breach latin1 net_pwned (str "password") = Ok true
  /\ _check_hibp_breach latin1 net_pwned (str "Tr0ub4dor&3") = Ok false.
Proof. split; vm_compute; reflexivity. Qed.

Example score_of_Tr0ub4dor :
  exists analysis g',
    analyze_password latin1 __init__ net_down (str "Tr0ub4dor&3") [] rng_a
    = Ok (analysis, g')
    /\ Analysis.strength_score analysis = 87
    /\ Analysis.recommendations analysis = [rec_length; rec_passphrase].
Proof.
  destruct (analyze_password_shape latin1 net_down (str "Tr0ub4dor&3") []
              rng_a) as (analysis & g' & H & S).
  exists analysis, g'. split; [exact H|].
  destruct S as [sq ct b p g' Hsq Hct _ Hb _].
  apply Ok_inj in Hsq. apply Ok_inj in Hct. apply Ok_inj in Hb.
  subst sq ct b. split; vm_compute; reflexivity.
Qed.

(** * The claims *)

(** ** C1 *)

(** C1: for every analysis, the strength score is the formula of the
    specification over the metrics, the weaknesses and the breach flag of
    that analysis, clamped to [0, 100]; the weakness penalty is flat. *)
Theorem C1_strength_score_formula (ucd : UCD) (requests_get : http)
    (password username : pystr) (g : rng) :
  exists analysis g' length up lo di sp rep sq kb ct br,
    analyze_password ucd __init__ requests_get password username g
    = Ok (analysis, g')
    /\ Analysis.metrics analysis
       = full_metrics length up lo di sp rep sq kb ct br
    /\ Analysis.strength_score analysis
       = clamp 0 100
           (Z.min (length * 4) 40
            + (if up then 10 else 0) + (if lo then 10 else 0)
            + (if di then 10 else 0) + (if sp then 10 else 0)
            + Qfloor (ct * 10)
            - (if rep then 15 else 0)
            - (if sq then 15 else 0)
            - (if kb then 20 else 0)
            - (match Analysis.weaknesses analysis with
               | [] => 0
               | _ :: _ => 20
               end)
            - (if br then 30 else 0)).
Proof.
  destruct (analyze_password_shape ucd requests_get password username g)
    as (analysis & g' & H & S).
  destruct S as [sq ct b p g' _ _ _ _ _].
  eexists _, g', _, _, _, _, _, _, sq, _, ct, b.
  split; [exact H|]. split; [reflexivity|].
  unfold analysis_of, score_formula, bonus, penalty, nonempty.
  cbn [Analysis.strength_score Analysis.weaknesses].
  destruct (_detect_weaknesses ucd __init__ password username); reflexivity.
Qed.

(** ** C2 *)

Lemma e_acute_has_uppercase :
  exists analysis g',
    analyze_password latin1 __init__ net_down e_acute [] rng_a
    = Ok (analysis, g')
    /\ Metrics.has_uppercase (Analysis.metrics analysis) = Some true.
Proof.
  destruct (analyze_password_shape latin1 net_down e_acute [] rng_a)
    as (analysis & g' & H & S).
  exists analysis, g'. split; [exact H|].
  destruct S. reflexivity.
Qed.

(** C2, as stated, fails: U+00C9 is outside the ASCII letters, digits and
    punctuation, and [str.isupper] holds of it, so [has_uppercase] is true
    in the analysis of the password made of that character. *)
Lemma C2_counterexample : ~ others_set_no_flag latin1.
Proof.
  intros claim.
  destruct e_acute_has_uppercase as (analysis & g' & H & Hup).
  destruct (claim net_down e_acute [] rng_a g' analysis eq_refl H)
    as [Hup' _].
  rewrite Hup in Hup'. discriminate.
Qed.

Lemma outside_ascii_not_punctuation (c : char) :
  outside_ascii_classes c = true -> char_in c punctuation = false.
Proof.
  unfold outside_ascii_classes. intros H.
  apply andb_prop in H. destruct H as [_ H].
  now apply negb_true_iff in H.
Qed.

Lemma between_char_in (lo hi c : N) (s : pystr) :
  (forall x, (lo <= x <= hi)%N -> In x s) ->
  between lo hi c = true -> char_in c s = true.
Proof.
  intros Hs H. apply char_in_In. apply Hs.
  unfold between in H. apply andb_prop in H. destruct H as [H1 H2].
  apply N.leb_le in H1. apply N.leb_le in H2. lia.
Qed.

Lemma In_consecutive (lo : N) (n : nat) (s : pystr) (x : N) :
  s = map N.of_nat (seq (N.to_nat lo) n) ->
  (lo <= x < lo + N.of_nat n)%N -> In x s.
Proof.
  intros -> H. apply in_map_iff. exists (N.to_nat x). split.
  - apply N2Nat.id.
  - apply in_seq. lia.
Qed.

Lemma upper_in_letters (c : char) :
  between 65 90 c = true -> char_in c ascii_letters = true.
Proof.
  apply between_char_in. intros x Hx. unfold ascii_letters.
  apply in_or_app. right.
  apply (In_consecutive 65 26); [reflexivity|lia].
Qed.

Lemma lower_in_letters (c : char) :
  between 97 122 c = true -> char_in c ascii_letters = true.
Proof.
  apply between_char_in. intros x Hx. unfold ascii_letters.
  apply in_or_app. left.
  apply (In_consecutive 97 26); [reflexivity|lia].
Qed.

Lemma digit_in_digits (c : char) :
  between 48 57 c = true -> char_in c digits = true.
Proof.
  apply between_char_in. intros x Hx.
  apply (In_consecutive 48 10); [reflexivity|lia].
Qed.

Lemma outside_ascii_is_plain (c : char) :
  outside_ascii_classes c = true ->
  between 65 90 c = false /\ between 97 122 c = false
  /\ between 48 57 c = false.
Proof.
  unfold outside_ascii_classes. intros H.
  pose proof (upper_in_letters c) as Hu.
  pose proof (lower_in_letters c) as Hl.
  pose proof (digit_in_digits c) as Hd.
  destruct (between 65 90 c), (between 97 122 c), (between 48 57 c),
    (char_in c ascii_letters), (char_in c digits);
    cbn in H; try discriminate; auto;
    try (specialize (Hu eq_refl); discriminate);
    try (specialize (Hl eq_refl); discriminate);
    try (specialize (Hd eq_refl); discriminate).
Qed.

Lemma outside_ascii_plain (ucd : UCD) (c : char) :
  outside_ascii_classes c = true ->
  is_ascii c = true \/ unicode_plain ucd c = true ->
  isupper ucd c = false /\ islower ucd c = false /\ isdigit ucd c = false.
Proof.
  intros H HU. destruct (outside_ascii_is_plain c H) as (Hu & Hl & Hd).
  unfold isupper, islower, isdigit. rewrite Hu, Hl, Hd.
  destruct (is_ascii c); [auto|].
  destruct HU as [HU|HU]; [discriminate|].
  unfold unicode_plain in HU.
  destruct (uc_isupper ucd c), (uc_islower ucd c), (uc_isdigit ucd c);
    cbn in HU; try discriminate; auto.
Qed.

Lemma existsb_false {A} (f : A -> bool) (xs : list A) :
  (forall x, In x xs -> f x = false) -> existsb f xs = false.
Proof.
  intros H. induction xs as [|x xs IH]; [reflexivity|].
  cbn. rewrite (H x (or_introl eq_refl)). cbn.
  apply IH. intros y Hy. apply H. right. exact Hy.
Qed.

(** C2, amended: when every character of the password is outside the ASCII
    letters, digits and punctuation and is either ASCII or a character
    that [str.isupper], [str.islower] and [str.isdigit] all reject, the
    four class flags of the analysis are false. *)
Theorem C2_plain_characters_set_no_flag (ucd : UCD) (requests_get : http)
    (password username : pystr) (g : rng) :
  forallb (fun c => outside_ascii_classes c
                    && (is_ascii c || unicode_plain ucd c)) password
  = true ->
  exists analysis g',
    analyze_password ucd __init__ requests_get password username g
    = Ok (analysis, g')
    /\ all_flags_false (Analysis.metrics analysis).
Proof.
  intros Hp. rewrite forallb_forall in Hp.
  assert (Hc : forall c, In c password ->
                 (isupper ucd c = false /\ islower ucd c = false
                  /\ isdigit ucd c = false)
                 /\ char_in c punctuation = false).
  { intros c Hin. specialize (Hp c Hin).
    apply andb_prop in Hp. destruct Hp as [Ho Hu].
    split.
    - apply outside_ascii_plain; [exact Ho|].
      apply orb_prop in Hu. exact Hu.
    - now apply outside_ascii_not_punctuation. }
  destruct (analyze_password_shape ucd requests_get password username g)
    as (analysis & g' & H & S).
  exists analysis, g'. split; [exact H|].
  destruct S. unfold all_flags_false, analysis_of, full_metrics.
  cbn [Analysis.metrics Metrics.has_uppercase Metrics.has_lowercase
       Metrics.has_digits Metrics.has_special].
  repeat split; f_equal; apply existsb_false; intros c Hin;
    apply Hc in Hin; tauto.
Qed.

(** A space, a tab, a multiplication sign and a no-break space. *)
Lemma C2_plain_characters_set_no_flag_witness :
  forallb (fun c => outside_ascii_classes c
                    && (is_ascii c || unicode_plain latin1 c))
          [32; 9; 215; 160]%N
  = true
  /\ exists analysis g',
       analyze_password latin1 __init__ net_down [32; 9; 215; 160]%N []
         rng_a
       = Ok (analysis, g')
       /\ all_flags_false (Analysis.metrics analysis).
Proof.
  split; [reflexivity|].
  apply (C2_plain_characters_set_no_flag latin1 net_down
           [32; 9; 215; 160]%N [] rng_a).
  reflexivity.
Defined.

(** ** C3 *)

Lemma pool_size_zero (password : pystr) :
  (pool_size password =? 0)
  = forallb (fun cls => negb (class_present (fst cls) password))
            class_table.
Proof.
  unfold pool_size, class_table. cbn [fold_right forallb fst].
  case_ifs; reflexivity.
Qed.

(** C3: the entropy of an analysis is the length times the binary
    logarithm of the pool size, the pool size being the sum of 26, 26, 10
    and 32 over the classes with a member in the password; it is 0 when no
    class is present, as for the empty password; and it is never
    negative. *)
Theorem C3_entropy (ucd : UCD) (requests_get : http)
    (password username : pystr) (g : rng) :
  let P := pool_size password in
  exists analysis g',
    analyze_password ucd __init__ requests_get password username g
    = Ok (analysis, g')
    /\ _calculate_entropy __init__ password
       = Ok (Analysis.entropy analysis)
    /\ Analysis.entropy analysis
       = (if forallb (fun cls => negb (class_present (fst cls) password))
                     class_table
          then 0
          else IZR (len password) * (ln (IZR P) / ln 2))%R
    /\ (0 <= Analysis.entropy analysis)%R
    /\ pool_size [] = 0.
Proof.
  intros P.
  destruct (analyze_password_shape ucd requests_get password username g)
    as (analysis & g' & H & S).
  exists analysis, g'. split; [exact H|].
  destruct S. unfold analysis_of. cbn [Analysis.entropy].
  split; [apply calculate_entropy_eq|].
  split; [rewrite <- pool_size_zero; reflexivity|].
  split; [apply entropy_nonneg|reflexivity].
Qed.

(** ** C4 *)

(** In an ASCII string, and in any string under the Latin-1 table, no
    character is a letter and a digit at once. *)
Lemma ascii_letters_are_not_digits (ucd : UCD) (s : pystr) :
  forallb is_ascii s = true -> letters_are_not_digits ucd s = true.
Proof.
  unfold letters_are_not_digits. rewrite !forallb_forall.
  intros H c Hc. specialize (H c Hc).
  unfold isalpha, isdigit. rewrite H. unfold between.
  destruct (N.leb_spec 65 c), (N.leb_spec c 90), (N.leb_spec 97 c),
    (N.leb_spec c 122), (N.leb_spec 48 c), (N.leb_spec c 57);
    cbn; try reflexivity; lia.
Qed.

Lemma latin1_letters_are_not_digits (s : pystr) :
  letters_are_not_digits latin1 s = true.
Proof.
  unfold letters_are_not_digits. apply forallb_forall. intros c _.
  unfold isalpha, isdigit. destruct (is_ascii c).
  - unfold between.
    destruct (N.leb_spec 65 c), (N.leb_spec c 90), (N.leb_spec 97 c),
      (N.leb_spec c 122), (N.leb_spec 48 c), (N.leb_spec c 57);
      cbn; try reflexivity; lia.
  - cbn [latin1 uc_isalpha uc_isdigit]. unfold latin1_isdigit.
    destruct (N.eqb_spec c 178) as [->|_]; [reflexivity|].
    destruct (N.eqb_spec c 179) as [->|_]; [reflexivity|].
    destruct (N.eqb_spec c 185) as [->|_]; [reflexivity|].
    cbn. now rewrite andb_false_r.
Qed.

(** C4: a password shorter than two characters has ratio 1; otherwise the
    divisor, the length minus one, is not zero, the ratio lies between 0
    and 1, and it is the number of adjacent pairs that count as a
    transition divided by the length minus one.  The ratio of "Aa1!" is 1
    and that of "aaaa" is 0.  The if/elif chain of the code is the
    disjunction of the specification when no character is a letter and a
    digit at once. *)
Theorem C4_character_transition_ratio (ucd : UCD) (password : pystr) :
  (len password < 2 -> _analyze_char_transitions ucd password = Ok 1%Q)
  /\ (2 <= len password ->
      len password - 1 <> 0
      /\ exists ratio,
           _analyze_char_transitions ucd password = Ok ratio
           /\ (0 <= ratio <= 1)%Q
           /\ (letters_are_not_digits ucd password = true ->
               (ratio == inject_Z (transition_pairs ucd password)
                         / inject_Z (len password - 1))%Q))
  /\ _analyze_char_transitions ucd (str "Aa1!") = Ok 1%Q
  /\ _analyze_char_transitions ucd (str "aaaa") = Ok 0%Q.
Proof.
  split; [|split; [|split]].
  - intros Hlt. rewrite analyze_char_transitions_eq.
    apply Z.ltb_lt in Hlt. now rewrite Hlt.
  - intros Hge. split; [lia|].
    rewrite analyze_char_transitions_eq.
    destruct (len password <? 2) eqn:E; [apply Z.ltb_lt in E; lia|].
    rewrite truediv_ok by lia.
    eexists. split; [reflexivity|]. split.
    + pose proof (sum_pairs_bounds (pair_step ucd) password
                    (pair_step_bounds ucd)) as B.
      apply ratio_bounds; lia.
    + intros Hld. rewrite sum_pairs_transition_pairs by exact Hld.
      apply Qred_correct.
  - reflexivity.
  - reflexivity.
Qed.

(** In "Pa55-" followed by U+00C9 the pairs Pa (case), a5, 5- and -U+00C9
    count and the pair 55 does not: four pairs of five. *)
Lemma C4_character_transition_ratio_witness :
  2 <= len (str "Pa55-" ++ e_acute)
  /\ letters_are_not_digits latin1 (str "Pa55-" ++ e_acute) = true
  /\ exists ratio,
       _analyze_char_transitions latin1 (str "Pa55-" ++ e_acute)
       = Ok ratio
       /\ (ratio == 4 # 5)%Q.
Proof.
  split; [cbv; discriminate|]. split; [reflexivity|].
  destruct (C4_character_transition_ratio latin1 (str "Pa55-" ++ e_acute))
    as [_ [H _]].
  destruct (H ltac:(cbv; discriminate)) as [_ [ratio [Hr [_ Hq]]]].
  exists ratio. split; [exact Hr|]. rewrite (Hq eq_refl). reflexivity.
Defined.

(** ** C5 *)

Lemma check_hibp_breach_fails (ucd : UCD) (requests_get : http)
    (password : pystr) :
  lookup_fails ucd requests_get password ->
  _check_hibp_breach ucd requests_get password = Ok false.
Proof.
  unfold lookup_fails, _check_hibp_breach, range_url, range_headers.
  destruct (encode password) as [bytes|e]; [|reflexivity].
  cbn [bind].
  destruct (requests_get _ _) as [response|e]; [|reflexivity].
  intros Hs. cbn [bind].
  destruct (status_code response =? 200) eqn:E;
    [apply Z.eqb_eq in E; contradiction|reflexivity].
Qed.

(** C5: when the breach lookup fails (the password cannot be encoded, the
    request raises, or the response is not a success), the breach check
    returns false without raising, and the analysis returns a result, in
    which the password is recorded as not breached. *)
Theorem C5_breach_failure_is_swallowed (ucd : UCD) (requests_get : http)
    (password : pystr) :
  lookup_fails ucd requests_get password ->
  _check_hibp_breach ucd requests_get password = Ok false
  /\ forall (username : pystr) (g : rng),
       exists analysis g',
         analyze_password ucd __init__ requests_get password username g
         = Ok (analysis, g')
         /\ Metrics.breached (Analysis.metrics analysis) = Some false.
Proof.
  intros Hf. pose proof (check_hibp_breach_fails _ _ _ Hf) as Hc.
  split; [exact Hc|]. intros username g.
  destruct (analyze_password_shape ucd requests_get password username g)
    as (analysis & g' & H & S).
  exists analysis, g'. split; [exact H|].
  destruct S as [sq ct b p g' _ _ _ Hb _].
  rewrite Hc in Hb. apply Ok_inj in Hb. subst b. reflexivity.
Qed.

(** The server answers 503 to the query for "password". *)
Lemma C5_breach_failure_is_swallowed_witness :
  lookup_fails latin1 net_503 (str "password")
  /\ _check_hibp_breach latin1 net_503 (str "password") = Ok false
  /\ forall (username : pystr) (g : rng),
       exists analysis g',
         analyze_password latin1 __init__ net_503 (str "password")
           username g
         = Ok (analysis, g')
         /\ Metrics.breached (Analysis.metrics analysis) = Some false.
Proof.
  split; [vm_compute; discriminate|].
  apply (C5_breach_failure_is_swallowed latin1 net_503 (str "password")).
  vm_compute. discriminate.
Defined.

(** The same when the network is down, and when the password holds a
    surrogate and cannot be encoded. *)
Example breach_lookup_failures :
  _check_hibp_breach latin1 net_down (str "password") = Ok false
  /\ _check_hibp_breach latin1 net_pwned [55357%N] = Ok false.
Proof. split; reflexivity. Qed.

(** ** C6 *)

Lemma check_hibp_breach_same (ucd : UCD) (net1 net2 : http)
    (password : pystr) :
  same_response ucd net1 net2 password ->
  _check_hibp_breach ucd net1 password
  = _check_hibp_breach ucd net2 password.
Proof.
  unfold same_response, _check_hibp_breach, range_url, range_headers.
  destruct (encode password) as [bytes|e]; [|reflexivity].
  intros H. cbn [bind]. rewrite H. reflexivity.
Qed.

(** C6: two analyses of the same password and username, under networks
    that answer the range query alike and with any two random supplies,
    agree on the score, the entropy, the metrics, the weaknesses and the
    recommendations. *)
Theorem C6_deterministic_but_for_suggestions (ucd : UCD) (net1 net2 : http)
    (password username : pystr) (g1 g2 : rng) :
  same_response ucd net1 net2 password ->
  exists a1 g1' a2 g2',
    analyze_password ucd __init__ net1 password username g1 = Ok (a1, g1')
    /\ analyze_password ucd __init__ net2 password username g2
       = Ok (a2, g2')
    /\ Analysis.strength_score a1 = Analysis.strength_score a2
    /\ Analysis.entropy a1 = Analysis.entropy a2
    /\ Analysis.metrics a1 = Analysis.metrics a2
    /\ Analysis.weaknesses a1 = Analysis.weaknesses a2
    /\ Analysis.recommendations a1 = Analysis.recommendations a2.
Proof.
  intros Hs.
  destruct (analyze_password_shape ucd net1 password username g1)
    as (a1 & g1' & H1 & S1).
  destruct (analyze_password_shape ucd net2 password username g2)
    as (a2 & g2' & H2 & S2).
  exists a1, g1', a2, g2'. split; [exact H1|]. split; [exact H2|].
  destruct S1 as [sq1 ct1 b1 p1 g1' Hsq1 Hct1 _ Hb1 _].
  destruct S2 as [sq2 ct2 b2 p2 g2' Hsq2 Hct2 _ Hb2 _].
  rewrite Hsq1 in Hsq2. apply Ok_inj in Hsq2. subst sq2.
  rewrite Hct1 in Hct2. apply Ok_inj in Hct2. subst ct2.
  rewrite (check_hibp_breach_same _ _ _ _ Hs), Hb2 in Hb1.
  apply Ok_inj in Hb1. subst b2.
  unfold analysis_of.
  cbn [Analysis.strength_score Analysis.entropy Analysis.metrics
       Analysis.weaknesses Analysis.recommendations].
  repeat (split; [reflexivity|]). reflexivity.
Qed.

Lemma C6_deterministic_but_for_suggestions_witness :
  same_response latin1 net_pwned net_pwned (str "password")
  /\ exists a1 g1' a2 g2',
       analyze_password latin1 __init__ net_pwned (str "password")
         (str "pass") rng_a = Ok (a1, g1')
       /\ analyze_password latin1 __init__ net_pwned (str "password")
            (str "pass") rng_b = Ok (a2, g2')
       /\ Analysis.strength_score a1 = Analysis.strength_score a2
       /\ Analysis.entropy a1 = Analysis.entropy a2
       /\ Analysis.metrics a1 = Analysis.metrics a2
       /\ Analysis.weaknesses a1 = Analysis.weaknesses a2
       /\ Analysis.recommendations a1 = Analysis.recommendations a2.
Proof.
  split; [reflexivity|].
  apply (C6_deterministic_but_for_suggestions latin1 net_pwned net_pwned
           (str "password") (str "pass") rng_a rng_b).
  reflexivity.
Defined.

(** The suggestions do depend on the random supply. *)
Lemma suggestions_differ :
  exists p1 g1' p2 g2',
    _suggest_strong_passwords latin1 rng_a = Ok (p1, g1')
    /\ _suggest_strong_passwords latin1 rng_b = Ok (p2, g2')
    /\ p1 <> p2.
Proof.
  destruct (suggest_strong_passwords_total latin1 rng_a)
    as [p1 [g1' [H1 _]]].
  destruct (suggest_strong_passwords_total latin1 rng_b)
    as [p2 [g2' [H2 _]]].
  exists p1, g1', p2, g2'. split; [exact H1|]. split; [exact H2|].
  intros ->.
  assert (E : option_map fst
                (match _suggest_strong_passwords latin1 rng_a with
                 | Ok x => Some x | Raise _ => None end)
              = option_map fst
                  (match _suggest_strong_passwords latin1 rng_b with
                   | Ok x => Some x | Raise _ => None end))
    by (rewrite H1, H2; reflexivity).
  vm_compute in E. discriminate.
Qed.

(** ** C7 *)

Lemma detect_weaknesses_eq (ucd : UCD) (password username : pystr) :
  _detect_weaknesses ucd __init__ password username
  = fired (detectors ucd password username).
Proof.
  unfold _detect_weaknesses, detectors, fired, append_if.
  cbn [filter map fst snd].
  destruct (str_in _ _), (_check_keyboard_patterns _ _ _),
    (truthy username && _), (_has_dictionary_patterns _ _),
    (_check_date_patterns _ _); reflexivity.
Qed.

Lemma messages_distinct :
  NoDup [msg_common; msg_keyboard; msg_username; msg_dictionary; msg_date].
Proof.
  repeat constructor; cbn [In]; intros H;
    repeat (destruct H as [H|H]; [discriminate H|]); exact H.
Qed.

Lemma fired_NoDup (ds : list (bool * pystr)) :
  NoDup (map snd ds) -> NoDup (fired ds).
Proof.
  unfold fired. induction ds as [|[b m] ds IH]; intros H.
  - constructor.
  - cbn [map snd] in H. inversion H as [|? ? Hn Hd]; subst.
    cbn [filter fst]. destruct b; [|now apply IH].
    cbn [map snd]. constructor; [|now apply IH].
    intros Hin. apply Hn.
    apply in_map_iff in Hin. destruct Hin as [[b' m'] [E Hin]].
    apply filter_In in Hin. destruct Hin as [Hin _].
    cbn in E. subst m'. apply in_map_iff. now exists (b', m).
Qed.

Lemma In_fired (ds : list (bool * pystr)) (message : pystr) :
  In message (fired ds) <-> In (true, message) ds.
Proof.
  unfold fired. rewrite in_map_iff. split.
  - intros [[fires m] [E Hin]]. apply filter_In in Hin.
    destruct Hin as [Hin Hf]. cbn in E, Hf. now subst.
  - intros Hin. exists (true, message). split; [reflexivity|].
    apply filter_In. now split.
Qed.

(** C7: the weaknesses of an analysis are the messages of the detectors
    that fire, in the order common password, keyboard pattern, username
    (non-empty, and its lower case a substring of the lower case of the
    password), dictionary pattern, date pattern; a message is there
    exactly when its detector fires, and it is there once. *)
Theorem C7_weaknesses_in_detector_order (ucd : UCD) (requests_get : http)
    (password username : pystr) (g : rng) :
  exists analysis g',
    analyze_password ucd __init__ requests_get password username g
    = Ok (analysis, g')
    /\ Analysis.weaknesses analysis
       = _detect_weaknesses ucd __init__ password username
    /\ Analysis.weaknesses analysis
       = fired (detectors ucd password username)
    /\ NoDup (Analysis.weaknesses analysis)
    /\ forall message,
         In message (Analysis.weaknesses analysis)
         <-> In (true, message) (detectors ucd password username).
Proof.
  destruct (analyze_password_shape ucd requests_get password username g)
    as (analysis & g' & H & S).
  exists analysis, g'. split; [exact H|].
  destruct S. unfold analysis_of. cbn [Analysis.weaknesses].
  split; [reflexivity|].
  rewrite detect_weaknesses_eq. split; [reflexivity|]. split.
  - apply fired_NoDup. exact messages_distinct.
  - apply In_fired.
Qed.

(** ** C8 *)

(** C8: for a positive [n] the generated password has [n] characters, for
    [n <= 0] it is empty and nothing is raised, and whatever the random
    supply every character is a letter, a digit or a punctuation
    character. *)
Theorem C8_generate_secure_password (n : Z) (g : rng) :
  exists s g',
    generate_secure_password n g = Ok (s, g')
    /\ (0 < n -> len s = n)
    /\ (n <= 0 -> s = [])
    /\ Forall (fun c => In c (ascii_letters ++ digits ++ punctuation)) s.
Proof.
  destruct (generate_secure_password_spec n g) as [s [g' [H [Hl Hf]]]].
  exists s, g'. split; [exact H|]. split; [|split].
  - intros Hn. lia.
  - intros Hn. unfold len in Hl. destruct s; [reflexivity|].
    cbn [List.length] in Hl. lia.
  - exact Hf.
Qed.

Example generate_16 :
  exists g', generate_secure_password 16 rng_a
             = Ok (str "dkryFMT07%,=^aho", g').
Proof. eexists. vm_compute. reflexivity. Qed.

Example generate_negative :
  generate_secure_password (-3) rng_a = Ok ([], rng_a).
Proof. reflexivity. Qed.

(** ** C9 *)

Lemma empty_keyboard_pattern (ucd : UCD) :
  _check_keyboard_patterns ucd __init__ [] = false.
Proof. vm_compute. reflexivity. Qed.

Lemma empty_weaknesses (ucd : UCD) :
  _detect_weaknesses ucd __init__ [] [] = [].
Proof. vm_compute. reflexivity. Qed.

(** C9: the analysis of the empty password, with an empty username, has
    length 0, all class flags and pattern flags false, transition ratio 1,
    no weaknesses and entropy 0. *)
Theorem C9_empty_password (ucd : UCD) (requests_get : http) (g : rng) :
  exists analysis g' breached,
    analyze_password ucd __init__ requests_get [] [] g = Ok (analysis, g')
    /\ Analysis.metrics analysis
       = {| Metrics.length := Some 0;
            Metrics.has_uppercase := Some false;
            Metrics.has_lowercase := Some false;
            Metrics.has_digits := Some false;
            Metrics.has_special := Some false;
            Metrics.repeated_chars := Some false;
            Metrics.sequential_chars := Some false;
            Metrics.keyboard_pattern := Some false;
            Metrics.character_transitions := Some 1%Q;
            Metrics.breached := Some breached |}
    /\ Analysis.weaknesses analysis = []
    /\ Analysis.entropy analysis = 0%R.
Proof.
  destruct (analyze_password_shape ucd requests_get [] [] g)
    as (analysis & g' & H & S).
  destruct S as [sq ct b p g' Hsq Hct _ _ _].
  apply Ok_inj in Hsq. apply Ok_inj in Hct. subst sq ct.
  eexists _, g', b. split; [exact H|].
  unfold analysis_of, full_metrics.
  cbn [Analysis.metrics Analysis.weaknesses Analysis.entropy].
  rewrite empty_keyboard_pattern, empty_weaknesses.
  repeat split.
Qed.

(** ** C10 *)

(** C10: the strength score of an analysis is at most 90: the length bonus
    is at most 40, the class bonuses at most 40, and the transition bonus
    at most 10 because the ratio is at most 1. *)
Theorem C10_score_at_most_90 (ucd : UCD) (requests_get : http)
    (password username : pystr) (g : rng) :
  exists analysis g',
    analyze_password ucd __init__ requests_get password username g
    = Ok (analysis, g')
    /\ Analysis.strength_score analysis <= 90.
Proof.
  destruct (analyze_password_shape ucd requests_get password username g)
    as (analysis & g' & H & S).
  exists analysis, g'. split; [exact H|].
  destruct S as [sq ct b p g' _ _ Hb _ _].
  unfold analysis_of. cbn [Analysis.strength_score].
  apply score_formula_le_90. exact Hb.
Qed.

(** * Further properties of the code *)

(** * Substrings *)

Lemma startswith_spec (s prefix : pystr) :
  startswith s prefix = true <-> exists rest, s = prefix ++ rest.
Proof.
  revert s. induction prefix as [|a p IH]; intros s.
  - split; [intros _; now exists s|intros _; destruct s; reflexivity].
  - destruct s as [|b s]; cbn.
    + split; [discriminate|intros [rest H]; discriminate].
    + rewrite andb_true_iff, N.eqb_eq, IH. split.
      * intros [-> [rest ->]]. now exists rest.
      * intros [rest H]. injection H as -> ->. split; [reflexivity|].
        now exists rest.
Qed.

Lemma contains_spec (hay needle : pystr) :
  contains hay needle = true
  <-> exists pre post, hay = pre ++ needle ++ post.
Proof.
  induction hay as [|c hay IH].
  - cbn [contains]. rewrite orb_false_r, startswith_spec. split.
    + intros [rest H]. now exists [], rest.
    + intros [pre [post H]]. destruct pre; [now exists post|discriminate].
  - cbn [contains]. rewrite orb_true_iff, startswith_spec, IH. split.
    + intros [[rest H]|[pre [post H]]].
      * now exists [], rest.
      * exists (c :: pre), post. cbn. now rewrite H.
    + intros [pre [post H]]. destruct pre as [|x pre].
      * left. now exists post.
      * right. cbn in H. injection H as -> H. now exists pre, post.
Qed.

(** * X: repeated characters *)

Lemma count_nonneg (s : pystr) (c : char) : 0 <= count s c <= len s.
Proof.
  unfold count, len, pystr, char in *.
  pose proof (filter_length_le (N.eqb c) s). lia.
Qed.

Lemma count_pos_In (s : pystr) (c : char) : 0 < count s c -> In c s.
Proof.
  unfold count, len. intros H.
  destruct (filter (N.eqb c) s) as [|x l] eqn:E; [cbn in H; lia|].
  assert (Hx : In x (filter (N.eqb c) s)) by (rewrite E; now left).
  apply filter_In in Hx. destruct Hx as [Hx Hc].
  apply N.eqb_eq in Hc. now subst.
Qed.

Lemma count_Permutation (s t : pystr) (c : char) :
  Permutation s t -> count s c = count t c.
Proof.
  intros H. unfold count, len. f_equal.
  induction H; cbn.
  - reflexivity.
  - destruct (N.eqb c x); cbn; lia.
  - destruct (N.eqb c x), (N.eqb c y); cbn; lia.
  - lia.
Qed.

Lemma check_repeated_chars_iff (password : pystr) :
  _check_repeated_chars password = true
  <-> exists c, 4 <= count password c.
Proof.
  unfold _check_repeated_chars, set. rewrite existsb_exists. split.
  - intros [c [_ H]]. exists c. now apply Z.leb_le.
  - intros [c H]. exists c. split; [|now apply Z.leb_le].
    apply nodup_In. apply count_pos_In. lia.
Qed.

(** X1: [_check_repeated_chars] holds exactly when some character occurs
    at least four times, wherever its occurrences are; so it fails on a
    password of fewer than four characters, and it does not depend on the
    order of the characters. *)
Theorem X1_repeated_chars (password : pystr) :
  (_check_repeated_chars password = true
   <-> exists c, 4 <= count password c)
  /\ (len password < 4 -> _check_repeated_chars password = false)
  /\ (forall password',
        Permutation password password' ->
        _check_repeated_chars password' = _check_repeated_chars password).
Proof.
  split; [apply check_repeated_chars_iff|]. split.
  - intros Hlen.
    destruct (_check_repeated_chars password) eqn:E; [|reflexivity].
    apply check_repeated_chars_iff in E. destruct E as [c Hc].
    pose proof (count_nonneg password c). lia.
  - intros password' HP. apply eq_true_iff_eq.
    rewrite !check_repeated_chars_iff.
    split; intros [c Hc]; exists c.
    + now rewrite (count_Permutation _ _ c HP).
    + now rewrite <- (count_Permutation _ _ c HP).
Qed.

(** * X: ascending sequences *)

Lemma sequences_body_step (password : pystr) (i : nat) (a b c : char) :
  nth_error password i = Some a ->
  nth_error password (S i) = Some b ->
  nth_error password (S (S i)) = Some c ->
  sequences_body password (Z.of_nat i)
  = Ok (N.eqb b (a + 1) && N.eqb c (b + 1)).
Proof.
  intros Ha Hb Hc. unfold sequences_body.
  replace (Z.of_nat i + 1) with (Z.of_nat (S i)) by lia.
  replace (Z.of_nat i + 2) with (Z.of_nat (S (S i))) by lia.
  rewrite (getitem_nat _ _ _ Hb), (getitem_nat _ _ _ Ha). cbn [bind].
  assert (E : forall x y : N, (ord y =? ord x + 1) = N.eqb y (x + 1)).
  { intros x y. unfold ord. apply eq_true_iff_eq.
    rewrite Z.eqb_eq, N.eqb_eq. lia. }
  rewrite E. destruct (N.eqb b (a + 1)); [|reflexivity].
  rewrite (getitem_nat _ _ _ Hc). cbn [bind].
  now rewrite E.
Qed.

Lemma sequences_loop (rest pre : pystr) :
  for_return_true (sequences_body (pre ++ rest))
    (map Z.of_nat (seq (List.length pre) (List.length rest - 2)))
  = Ok (run3 rest).
Proof.
  revert pre. induction rest as [|a rest IH]; intros pre; [reflexivity|].
  destruct rest as [|b rest]; [reflexivity|].
  destruct rest as [|c rest]; [reflexivity|].
  replace (List.length (a :: b :: c :: rest) - 2)%nat
    with (S (List.length rest)) by (cbn; lia).
  cbn [seq map for_return_true].
  rewrite (sequences_body_step _ _ a b c).
  - cbn [bind].
    change (run3 (a :: b :: c :: rest))
      with ((N.eqb b (a + 1) && N.eqb c (b + 1)) || run3 (b :: c :: rest)).
    destruct (N.eqb b (a + 1) && N.eqb c (b + 1)); [reflexivity|].
    specialize (IH (pre ++ [a])).
    rewrite <- app_assoc in IH. cbn [app] in IH.
    rewrite length_app in IH. cbn [List.length] in IH.
    replace (List.length pre + 1)%nat with (S (List.length pre)) in IH
      by lia.
    replace (S (S (List.length rest)) - 2)%nat with (List.length rest)
      in IH by lia.
    exact IH.
  - rewrite nth_error_app2 by lia. now rewrite Nat.sub_diag.
  - rewrite nth_error_app2 by lia.
    now replace (S (List.length pre) - List.length pre)%nat with 1%nat
      by lia.
  - rewrite nth_error_app2 by lia.
    now replace (S (S (List.length pre)) - List.length pre)%nat
      with 2%nat by lia.
Qed.

Lemma check_sequences_eq (password : pystr) :
  _check_sequences password = Ok (run3 password).
Proof.
  unfold _check_sequences.
  rewrite (range_len_minus password 2) by reflexivity.
  exact (sequences_loop password []).
Qed.

Lemma run3_spec (s : pystr) :
  run3 s = true
  <-> exists pre a rest,
        s = pre ++ [a; (a + 1)%N; (a + 2)%N] ++ rest.
Proof.
  induction s as [|a s IH].
  - split; [discriminate|].
    intros (pre & x & rest & H). destruct pre; discriminate.
  - destruct s as [|b s].
    + split; [discriminate|].
      intros (pre & x & rest & H).
      destruct pre as [|? [|? ?]]; discriminate.
    + destruct s as [|c s].
      * split; [discriminate|].
        intros (pre & x & rest & H).
        destruct pre as [|? [|? [|? ?]]]; discriminate.
      * change (run3 (a :: b :: c :: s))
          with ((N.eqb b (a + 1) && N.eqb c (b + 1)) || run3 (b :: c :: s)).
        rewrite orb_true_iff, andb_true_iff, !N.eqb_eq, IH. split.
        -- intros [[-> ->]|(pre & x & rest & H)].
           ++ exists [], a, s. cbn.
              now replace (a + 1 + 1)%N with (a + 2)%N by lia.
           ++ exists (a :: pre), x, rest. cbn. now rewrite H.
        -- intros (pre & x & rest & H). destruct pre as [|y pre].
           ++ left. cbn in H. injection H as -> -> -> _. split; lia.
           ++ right. cbn in H. injection H as -> H.
              now exists pre, x, rest.
Qed.

(** X2: [_check_sequences] never raises, whatever the length of the
    password (its reads at [i], [i+1] and [i+2] stay inside the string),
    and it returns true exactly when three consecutive characters of the
    password have consecutive increasing code points. *)
Theorem X2_sequences (password : pystr) :
  exists b,
    _check_sequences password = Ok b
    /\ (b = true
        <-> exists pre a rest,
              password = pre ++ [a; (a + 1)%N; (a + 2)%N] ++ rest).
Proof.
  exists (run3 password). split; [apply check_sequences_eq|].
  apply run3_spec.
Qed.

(** * X: date patterns *)

Lemma re_search_spec (r : regex) (s : pystr) :
  re_search r s = true
  <-> exists pre rest, s = pre ++ rest /\ match_here r rest = true.
Proof.
  induction s as [|c s IH].
  - cbn [re_search]. rewrite orb_false_r. split.
    + intros H. now exists [], [].
    + intros (pre & rest & E & H).
      symmetry in E. apply app_eq_nil in E. destruct E as [_ ->]. exact H.
  - cbn [re_search]. rewrite orb_true_iff, IH. split.
    + intros [H|(pre & rest & -> & H)].
      * now exists [], (c :: s).
      * now exists (c :: pre), rest.
    + intros (pre & rest & E & H). destruct pre as [|x pre].
      * left. cbn in E. now subst rest.
      * right. cbn in E. injection E as -> ->. now exists pre, rest.
Qed.

Lemma take_rep_spec (cls : char -> bool) (n : nat) (s s' : pystr) :
  take_rep cls n s = Some s'
  <-> exists taken,
        s = taken ++ s' /\ List.length taken = n
        /\ forallb cls taken = true.
Proof.
  revert s. induction n as [|n IH]; intros s.
  - cbn. split.
    + intros H. injection H as ->. now exists [].
    + intros (taken & -> & Hl & _). destruct taken; [reflexivity|].
      discriminate.
  - cbn [take_rep]. destruct s as [|c s].
    + split; [discriminate|].
      intros (taken & E & Hl & _). destruct taken; discriminate.
    + destruct (cls c) eqn:Hc.
      * rewrite IH. split.
        -- intros (taken & -> & Hl & Hf). exists (c :: taken).
           cbn. rewrite Hc, Hf. repeat split. now rewrite Hl.
        -- intros (taken & E & Hl & Hf). destruct taken as [|x taken];
             [discriminate|].
           cbn in E, Hl, Hf. injection E as -> ->.
           apply andb_prop in Hf. destruct Hf as [_ Hf].
           exists taken. repeat split; [lia|exact Hf].
      * split; [discriminate|].
        intros (taken & E & Hl & Hf). destruct taken as [|x taken];
          [discriminate|].
        cbn in E, Hf. injection E as -> _. rewrite Hc in Hf. discriminate.
Qed.

(** An item that repeats exactly [n] times. *)
Lemma match_here_exact (cls : char -> bool) (n : nat) (r : regex)
    (s : pystr) :
  match_here (Rep cls n n :: r) s = true
  <-> exists taken rest,
        s = taken ++ rest /\ List.length taken = n
        /\ forallb cls taken = true /\ match_here r rest = true.
Proof.
  cbn [match_here]. replace (S n - n)%nat with 1%nat by lia.
  cbn [seq existsb]. rewrite orb_false_r. split.
  - destruct (take_rep cls n s) as [s'|] eqn:E; [|discriminate].
    intros H. apply take_rep_spec in E.
    destruct E as (taken & -> & Hl & Hf). now exists taken, s'.
  - intros (taken & rest & -> & Hl & Hf & H).
    assert (E : take_rep cls n (taken ++ rest) = Some rest).
    { apply take_rep_spec. now exists taken. }
    now rewrite E.
Qed.

(** A pattern matches where a longer pattern matches. *)
Lemma match_here_app (r1 r2 : regex) (s : pystr) :
  match_here (r1 ++ r2) s = true -> match_here r1 s = true.
Proof.
  revert s. induction r1 as [|[cls lo hi] r1 IH]; intros s; [reflexivity|].
  cbn [app match_here]. rewrite !existsb_exists.
  intros (n & Hn & H). exists n. split; [exact Hn|].
  destruct (take_rep cls n s) as [s'|]; [|discriminate].
  now apply IH.
Qed.

Lemma re_search_app (r1 r2 : regex) (s : pystr) :
  re_search (r1 ++ r2) s = true -> re_search r1 s = true.
Proof.
  rewrite !re_search_spec. intros (pre & rest & E & H).
  exists pre, rest. split; [exact E|]. now apply match_here_app in H.
Qed.

Lemma separator_spec (c : char) :
  char_in c (str "/-") = true <-> is_date_separator c.
Proof.
  rewrite char_in_In. unfold is_date_separator. cbn. intuition.
Qed.

Lemma length1 {A} (l : list A) :
  List.length l = 1%nat -> exists x, l = [x].
Proof.
  destruct l as [|x [|y l]]; try discriminate. intros _. now exists x.
Qed.

(** X3: [_check_date_patterns] holds exactly when the password has four
    decimal digits in a row, or two decimal digits, a slash or a hyphen,
    and two decimal digits in a row.  The third pattern of the source
    never decides: where it matches, the second one does. *)
Theorem X3_date_patterns (ucd : UCD) (password : pystr) :
  _check_date_patterns ucd password = true
  <-> (exists pre ds rest,
         password = pre ++ ds ++ rest
         /\ List.length ds = 4%nat
         /\ forallb (isdecimal ucd) ds = true)
      \/ (exists pre ds1 sep ds2 rest,
            password = pre ++ ds1 ++ sep :: ds2 ++ rest
            /\ List.length ds1 = 2%nat /\ List.length ds2 = 2%nat
            /\ forallb (isdecimal ucd) ds1 = true
            /\ is_date_separator sep
            /\ forallb (isdecimal ucd) ds2 = true).
Proof.
  unfold _check_date_patterns, date_patterns.
  cbn [existsb]. rewrite orb_false_r.
  set (d := isdecimal ucd). set (sp := fun c => char_in c (str "/-")).
  set (p2 := [Rep d 2 2; Rep sp 1 1; Rep d 2 2]).
  assert (H3 : re_search (p2 ++ [Rep sp 1 1; Rep d 2 4]) password = true
               -> re_search p2 password = true) by apply re_search_app.
  cbn [app] in H3. subst p2.
  assert (P1 : re_search [Rep d 4 4] password = true
               <-> exists pre ds rest,
                     password = pre ++ ds ++ rest
                     /\ List.length ds = 4%nat /\ forallb d ds = true).
  { rewrite re_search_spec. split.
    - intros (pre & rest & -> & H). apply match_here_exact in H.
      destruct H as (ds & rest' & -> & Hl & Hf & _). now exists pre, ds, rest'.
    - intros (pre & ds & rest & -> & Hl & Hf). exists pre, (ds ++ rest).
      split; [reflexivity|]. apply match_here_exact. now exists ds, rest. }
  assert (P2 : re_search [Rep d 2 2; Rep sp 1 1; Rep d 2 2] password = true
               <-> exists pre ds1 sep ds2 rest,
                     password = pre ++ ds1 ++ sep :: ds2 ++ rest
                     /\ List.length ds1 = 2%nat /\ List.length ds2 = 2%nat
                     /\ forallb d ds1 = true
                     /\ is_date_separator sep
                     /\ forallb d ds2 = true).
  { rewrite re_search_spec. split.
    - intros (pre & rest & -> & H). apply match_here_exact in H.
      destruct H as (ds1 & r1 & -> & Hl1 & Hf1 & H).
      apply match_here_exact in H.
      destruct H as (s1 & r2 & -> & Hls & Hfs & H).
      apply match_here_exact in H.
      destruct H as (ds2 & r3 & -> & Hl2 & Hf2 & _).
      destruct (length1 s1 Hls) as [sep ->].
      cbn in Hfs. rewrite andb_true_r in Hfs.
      apply separator_spec in Hfs.
      now exists pre, ds1, sep, ds2, r3.
    - intros (pre & ds1 & sep & ds2 & rest & -> & Hl1 & Hl2 & Hf1 & Hs & Hf2).
      exists pre, (ds1 ++ sep :: ds2 ++ rest). split; [reflexivity|].
      apply match_here_exact. exists ds1, (sep :: ds2 ++ rest).
      repeat split; try assumption.
      apply match_here_exact. exists [sep], (ds2 ++ rest).
      repeat split.
      + cbn. rewrite andb_true_r. now apply separator_spec.
      + apply match_here_exact. exists ds2, rest. now repeat split. }
  rewrite !orb_true_iff, <- P1, <- P2. tauto.
Qed.

(** * X: dictionary patterns *)

Lemma fold_replace_map (subs : list (char * char)) (s : pystr) :
  fold_left (fun normalized '(sub, char) => replace normalized sub char)
            subs s
  = map (substitute_char subs) s.
Proof.
  revert s. induction subs as [|[sub target] subs IH]; intros s.
  - cbn. now rewrite map_id.
  - cbn [fold_left]. rewrite IH. unfold replace. rewrite map_map.
    reflexivity.
Qed.

Lemma substitute_char_leet (c : char) :
  substitute_char common_subs c = leet c.
Proof.
  unfold substitute_char, leet, common_subs.
  cbn [fold_left find fst].
  repeat match goal with
         | |- context [N.eqb c ?k] =>
             destruct (N.eqb_spec c k) as [->|?]; [reflexivity|]
         end.
  reflexivity.
Qed.

Lemma leet_idempotent (c : char) : leet (leet c) = leet c.
Proof.
  unfold leet at 2, common_subs. cbn [find fst].
  repeat match goal with
         | |- context [N.eqb c ?k] =>
             destruct (N.eqb_spec c k) as [->|?]; [reflexivity|]
         end.
  unfold leet, common_subs. cbn [find fst].
  repeat match goal with
         | H : c <> ?k |- context [N.eqb c ?k] =>
             destruct (N.eqb_spec c k) as [?|_]; [contradiction|]
         end.
  reflexivity.
Qed.

(** X4: the ten substitutions of [_has_dictionary_patterns], applied one
    after the other to the whole string, come to one pass that maps each
    character through the table (no target of a substitution is the
    source of another, so a second pass would change nothing); the
    password is flagged exactly when a common word is a substring of its
    lower case mapped in this way. *)
Theorem X4_dictionary_patterns (ucd : UCD) (password : pystr) :
  (_has_dictionary_patterns ucd password = true
   <-> exists word pre post,
         In word common_words
         /\ map leet (lower ucd password) = pre ++ word ++ post)
  /\ (forall c, leet (leet c) = leet c).
Proof.
  split; [|apply leet_idempotent].
  unfold _has_dictionary_patterns. rewrite fold_replace_map.
  rewrite (map_ext _ _ substitute_char_leet).
  rewrite existsb_exists. split.
  - intros (word & Hw & H). apply contains_spec in H.
    destruct H as (pre & post & H). now exists word, pre, post.
  - intros (word & pre & post & Hw & H). exists word. split; [exact Hw|].
    apply contains_spec. now exists pre, post.
Qed.

(** * X: what an analysis says about itself *)

Lemma In_if_singleton (b : bool) (x y : pystr) :
  In x (if b then [y] else []) <-> b = true /\ x = y.
Proof.
  destruct b; cbn; [|now intuition].
  split; [intros [->|[]]; now split|intros [_ ->]; now left].
Qed.

Lemma In_if_singleton_neg (b : bool) (x y : pystr) :
  In x (if b then [] else [y]) <-> b = false /\ x = y.
Proof.
  destruct b; cbn; [now intuition|].
  split; [intros [->|[]]; now split|intros [_ ->]; now left].
Qed.

Lemma recommendations_distinct : NoDup all_recommendations.
Proof.
  repeat constructor; cbn [In]; intros H;
    repeat (destruct H as [H|H]; [discriminate H|]); exact H.
Qed.

Lemma recommendations_for_sublist (score length : Z)
    (up lo di sp br kb : bool) :
  exists keep : list bool,
    recommendations_for score length up lo di sp br kb
    = map snd (filter fst (combine keep all_recommendations))
    /\ keep = [score <? 60; length <? 12; negb (up && lo && di && sp);
               br; kb; true].
Proof.
  eexists. split; [|reflexivity].
  unfold recommendations_for, all_recommendations.
  destruct (score <? 60), (length <? 12), up, lo, di, sp, br, kb;
    reflexivity.
Qed.

Lemma recommendations_for_NoDup (score length : Z)
    (up lo di sp br kb : bool) :
  NoDup (recommendations_for score length up lo di sp br kb).
Proof.
  destruct (recommendations_for_sublist score length up lo di sp br kb)
    as (keep & -> & _).
  apply (fired_NoDup (combine keep all_recommendations)).
  pose proof recommendations_distinct as D.
  revert keep. generalize all_recommendations D. clear.
  induction l as [|x l IH]; intros D keep.
  - destruct keep; constructor.
  - destruct keep as [|k keep]; [constructor|].
    cbn [combine map snd]. inversion D as [|? ? Hn Hd]; subst.
    constructor; [|now apply IH].
    intros Hin. apply Hn. apply in_map_iff in Hin.
    destruct Hin as [[k' y] [E Hin]]. cbn in E. subst y.
    now apply in_combine_r in Hin.
Qed.

Lemma In_recommendations_for (score length : Z)
    (up lo di sp br kb : bool) :
  let r := recommendations_for score length up lo di sp br kb in
  (In rec_stronger r <-> score < 60)
  /\ (In rec_length r <-> length < 12)
  /\ (In rec_mix r <-> up && lo && di && sp = false)
  /\ (In rec_breach r <-> br = true)
  /\ (In rec_keyboard r <-> kb = true)
  /\ last r [] = rec_passphrase.
Proof.
  cbn zeta. unfold recommendations_for.
  repeat split;
    try (rewrite !in_app_iff, !In_if_singleton, !In_if_singleton_neg;
         cbn [In]; rewrite ?Z.ltb_lt;
         intuition auto; try discriminate).
  rewrite !app_assoc. apply last_last.
Qed.

Lemma In_msg_keyboard (ucd : UCD) (password username : pystr) :
  In msg_keyboard (_detect_weaknesses ucd __init__ password username)
  <-> _check_keyboard_patterns ucd __init__ password = true.
Proof.
  rewrite detect_weaknesses_eq, In_fired. unfold detectors. cbn [In].
  split.
  - intros [H|[H|[H|[H|[H|[]]]]]]; try discriminate H.
    now injection H.
  - intros ->. right. now left.
Qed.

Lemma score_formula_cap (length : Z) (up lo di sp : bool) (ct : Q)
    (rep sq kb : bool) (w : list pystr) (br : bool) :
  (0 <= ct <= 1)%Q ->
  score_formula length up lo di sp ct rep sq kb w br
  <= Z.max 0 (90 - penalty 15 rep - penalty 15 sq - penalty 20 kb
              - penalty 20 (nonempty w) - penalty 30 br).
Proof.
  intros Hct. pose proof (floor_times_ten ct Hct) as F.
  unfold score_formula, clamp, bonus, penalty.
  destruct up, lo, di, sp, rep, sq, kb, br, (nonempty w); lia.
Qed.

(** X5: the keyboard detector runs twice, for the metrics and for the
    weaknesses, and the two always agree: [keyboard_pattern] is true
    exactly when the keyboard finding is among the weaknesses.  The
    password then loses 20 points twice, and its score is at most 50. *)
Theorem X5_keyboard_pattern_counts_twice (ucd : UCD) (requests_get : http)
    (password username : pystr) (g : rng) :
  exists analysis g' kb,
    analyze_password ucd __init__ requests_get password username g
    = Ok (analysis, g')
    /\ Metrics.keyboard_pattern (Analysis.metrics analysis) = Some kb
    /\ (kb = true <-> In msg_keyboard (Analysis.weaknesses analysis))
    /\ (kb = true -> Analysis.strength_score analysis <= 50).
Proof.
  destruct (analyze_password_shape ucd requests_get password username g)
    as (analysis & g' & H & S).
  exists analysis, g', (_check_keyboard_patterns ucd __init__ password).
  split; [exact H|]. destruct S as [sq ct b p g' _ _ Hct _ _].
  unfold analysis_of.
  cbn [Analysis.metrics Analysis.weaknesses Analysis.strength_score
       full_metrics Metrics.keyboard_pattern].
  split; [reflexivity|]. split; [symmetry; apply In_msg_keyboard|].
  intros Hkb.
  pose proof (proj2 (In_msg_keyboard ucd password username) Hkb) as Hin.
  match goal with |- score_formula ?l ?u ?lo ?d ?s ?c ?r ?q ?k ?w ?b <= _ =>
    pose proof (score_formula_cap l u lo d s c r q k w b Hct) as C
  end.
  rewrite Hkb in C. rewrite Hkb.
  destruct (_detect_weaknesses ucd __init__ password username);
    [contradiction|].
  cbv beta iota delta [penalty nonempty] in C.
  repeat match type of C with context [if ?x then _ else _] =>
    destruct x end; lia.
Qed.

(** X6: the recommendations of an analysis end with the passphrase advice
    and hold no advice twice; each other advice is there exactly under its
    condition: a score below 60, a length below 12, a missing character
    class, a breach, a keyboard pattern. *)
Theorem X6_recommendations (ucd : UCD) (requests_get : http)
    (password username : pystr) (g : rng) :
  exists analysis g' up lo di sp,
    analyze_password ucd __init__ requests_get password username g
    = Ok (analysis, g')
    /\ Metrics.has_uppercase (Analysis.metrics analysis) = Some up
    /\ Metrics.has_lowercase (Analysis.metrics analysis) = Some lo
    /\ Metrics.has_digits (Analysis.metrics analysis) = Some di
    /\ Metrics.has_special (Analysis.metrics analysis) = Some sp
    /\ last (Analysis.recommendations analysis) [] = rec_passphrase
    /\ NoDup (Analysis.recommendations analysis)
    /\ (In rec_stronger (Analysis.recommendations analysis)
        <-> Analysis.strength_score analysis < 60)
    /\ (In rec_length (Analysis.recommendations analysis)
        <-> len password < 12)
    /\ (In rec_mix (Analysis.recommendations analysis)
        <-> up && lo && di && sp = false)
    /\ (In rec_breach (Analysis.recommendations analysis)
        <-> Metrics.breached (Analysis.metrics analysis) = Some true)
    /\ (In rec_keyboard (Analysis.recommendations analysis)
        <-> Metrics.keyboard_pattern (Analysis.metrics analysis)
            = Some true).
Proof.
  destruct (analyze_password_shape ucd requests_get password username g)
    as (analysis & g' & H & S).
  destruct S as [sq ct b p g' _ _ _ _ _].
  eexists _, g', _, _, _, _. split; [exact H|].
  unfold analysis_of.
  cbn [Analysis.metrics Analysis.recommendations Analysis.strength_score
       full_metrics Metrics.has_uppercase Metrics.has_lowercase
       Metrics.has_digits Metrics.has_special Metrics.breached
       Metrics.keyboard_pattern].
  do 4 (split; [reflexivity|]).
  match goal with |- context [recommendations_for ?s ?l ?u ?lo ?d ?sp ?br ?k] =>
    destruct (In_recommendations_for s l u lo d sp br k)
      as (R1 & R2 & R3 & R4 & R5 & R6);
    pose proof (recommendations_for_NoDup s l u lo d sp br k) as ND
  end.
  cbn zeta in *.
  split; [exact R6|]. split; [exact ND|].
  split; [exact R1|]. split; [exact R2|]. split; [exact R3|].
  split.
  - rewrite R4. split; [now intros ->|intros E; now injection E].
  - rewrite R5. split; [now intros ->|intros E; now injection E].
Qed.

(** X7: every penalty caps the score of an analysis: at most 75 with a
    repeated character or with an ascending sequence, at most 70 with any
    weakness, at most 60 when breached, and at most 40 when breached with
    a weakness. *)
Theorem X7_penalties_cap_the_score (ucd : UCD) (requests_get : http)
    (password username : pystr) (g : rng) :
  exists analysis g',
    analyze_password ucd __init__ requests_get password username g
    = Ok (analysis, g')
    /\ let m := Analysis.metrics analysis in
       let score := Analysis.strength_score analysis in
       (Metrics.repeated_chars m = Some true -> score <= 75)
       /\ (Metrics.sequential_chars m = Some true -> score <= 75)
       /\ (Analysis.weaknesses analysis <> [] -> score <= 70)
       /\ (Metrics.breached m = Some true -> score <= 60)
       /\ (Analysis.weaknesses analysis <> [] ->
           Metrics.breached m = Some true -> score <= 40).
Proof.
  destruct (analyze_password_shape ucd requests_get password username g)
    as (analysis & g' & H & S).
  exists analysis, g'. split; [exact H|].
  destruct S as [sq ct b p g' _ _ Hct _ _].
  unfold analysis_of.
  cbn [Analysis.metrics Analysis.weaknesses Analysis.strength_score
       full_metrics Metrics.repeated_chars Metrics.sequential_chars
       Metrics.breached].
  cbn zeta.
  match goal with
  | |- context [score_formula ?l ?u ?lo ?d ?s ?c ?r ?q ?k ?w ?b] =>
    pose proof (score_formula_cap l u lo d s c r q k w b Hct) as C;
    generalize dependent (score_formula l u lo d s c r q k w b)
  end.
  intros score C. unfold penalty, nonempty in C.
  repeat split.
  - intros E. injection E as E. rewrite E in C.
    cbv beta iota in C.
    repeat match type of C with context [if ?x then _ else _] =>
      destruct x end; lia.
  - intros E. injection E as E. rewrite E in C.
    cbv beta iota in C.
    repeat match type of C with context [if ?x then _ else _] =>
      destruct x end; lia.
  - intros E.
    destruct (_detect_weaknesses ucd __init__ password username);
      [contradiction|].
    cbv beta iota in C.
    repeat match type of C with context [if ?x then _ else _] =>
      destruct x end; lia.
  - intros E. injection E as E. rewrite E in C.
    cbv beta iota in C.
    repeat match type of C with context [if ?x then _ else _] =>
      destruct x end; lia.
  - intros E E'. injection E' as E'. rewrite E' in C.
    destruct (_detect_weaknesses ucd __init__ password username);
      [contradiction|].
    cbv beta iota in C.
    repeat match type of C with context [if ?x then _ else _] =>
      destruct x end; lia.
Qed.

(** * X: the colour of the score *)

Lemma score_color_GREEN (score : Z) :
  score_color score = GREEN <-> 80 <= score.
Proof.
  unfold score_color.
  destruct (Z.geb_spec score 80), (Z.geb_spec score 60);
    split; intros; try discriminate; try reflexivity; lia.
Qed.

Lemma score_color_RED (score : Z) :
  score_color score = RED <-> score < 60.
Proof.
  unfold score_color.
  destruct (Z.geb_spec score 80), (Z.geb_spec score 60);
    split; intros; try discriminate; try reflexivity; lia.
Qed.

Lemma score_formula_green (length : Z) (up lo di sp : bool) (ct : Q)
    (rep sq kb : bool) (w : list pystr) (br : bool) :
  (0 <= ct <= 1)%Q ->
  80 <= score_formula length up lo di sp ct rep sq kb w br ->
  rep = false /\ sq = false /\ kb = false /\ w = [] /\ br = false
  /\ 8 <= length.
Proof.
  intros Hct. pose proof (floor_times_ten ct Hct) as F.
  unfold score_formula, clamp, bonus, penalty, nonempty.
  destruct up, lo, di, sp, rep, sq, kb, br, w; intros H;
    repeat split; try reflexivity; lia.
Qed.

(** X8: [main] prints the score in green only for a password of at least
    eight characters that has no weakness, no repeated character, no
    ascending sequence and no keyboard pattern and is not breached; it
    prints the score in red exactly when the analysis recommends a
    stronger password. *)
Theorem X8_score_color (ucd : UCD) (requests_get : http)
    (password username : pystr) (g : rng) :
  exists analysis g',
    analyze_password ucd __init__ requests_get password username g
    = Ok (analysis, g')
    /\ let m := Analysis.metrics analysis in
       (score_color (Analysis.strength_score analysis) = GREEN ->
        Analysis.weaknesses analysis = []
        /\ Metrics.repeated_chars m = Some false
        /\ Metrics.sequential_chars m = Some false
        /\ Metrics.keyboard_pattern m = Some false
        /\ Metrics.breached m = Some false
        /\ 8 <= len password)
       /\ (score_color (Analysis.strength_score analysis) = RED
           <-> In rec_stronger (Analysis.recommendations analysis)).
Proof.
  destruct (analyze_password_shape ucd requests_get password username g)
    as (analysis & g' & H & S).
  exists analysis, g'. split; [exact H|].
  destruct S as [sq ct b p g' _ _ Hct _ _].
  unfold analysis_of.
  cbn [Analysis.metrics Analysis.weaknesses Analysis.strength_score
       Analysis.recommendations full_metrics Metrics.repeated_chars
       Metrics.sequential_chars Metrics.keyboard_pattern Metrics.breached].
  cbn zeta. split.
  - intros G. apply score_color_GREEN in G.
    apply (score_formula_green _ _ _ _ _ _ _ _ _ _ _ Hct) in G.
    destruct G as (-> & -> & -> & -> & -> & L).
    repeat split; try reflexivity. exact L.
  - rewrite score_color_RED.
    match goal with
    | |- context [recommendations_for ?s ?l ?u ?lo ?d ?sp ?br ?k] =>
        destruct (In_recommendations_for s l u lo d sp br k) as (R1 & _)
    end.
    cbn zeta in R1. symmetry. exact R1.
Qed.

(** * X: the score on an arbitrary dictionary *)

Lemma complete_full (length : Z) (up lo di sp rep sq kb : bool) (ct : Q)
    (br : bool) :
  complete (full_metrics length up lo di sp rep sq kb ct br) = true.
Proof. reflexivity. Qed.


(** * X: the three suggestions *)

Lemma In_repeat_str (s : pystr) (n : nat) (c : char) :
  In c (repeat_str s n) -> In c s.
Proof.
  unfold repeat_str. rewrite in_concat. intros (x & Hx & Hc).
  apply repeat_spec in Hx. now subst.
Qed.

Lemma repeat_str_nonempty (s : pystr) (n : nat) :
  s <> [] -> repeat_str s (S n) <> [].
Proof.
  intros Hs. unfold repeat_str. cbn. destruct s; [contradiction|].
  discriminate.
Qed.

Lemma choice_char (s : pystr) (g : rng) :
  s <> [] ->
  exists c, choice (chars s) g = Ok ([c], advance g) /\ In c s.
Proof.
  intros Hs.
  destruct (choice_ok (chars s) g (chars_nonempty s Hs)) as [x [Hx Hin]].
  apply In_chars in Hin. destruct Hin as [c [-> Hc]]. now exists c.
Qed.

Lemma Forall_map_exists {A B} (f : A -> B) (P : A -> Prop) (ys : list B) :
  Forall (fun y => exists x, P x /\ y = f x) ys ->
  exists xs, ys = map f xs /\ Forall P xs.
Proof.
  induction 1 as [|y ys (x & Px & ->) _ (xs & -> & HP)].
  - now exists [].
  - exists (x :: xs). split; [reflexivity|]. now constructor.
Qed.

Lemma In_uppercase_isupper (ucd : UCD) (c : char) :
  In c ascii_uppercase -> isupper ucd c = true.
Proof.
  intros H. cbv in H.
  repeat (destruct H as [<-|H]; [reflexivity|]). contradiction.
Qed.

Lemma In_lowercase_islower (ucd : UCD) (c : char) :
  In c ascii_lowercase -> islower ucd c = true.
Proof.
  intros H. cbv in H.
  repeat (destruct H as [<-|H]; [reflexivity|]). contradiction.
Qed.

Lemma In_digits_isdigit (ucd : UCD) (c : char) :
  In c digits -> isdigit ucd c = true.
Proof.
  intros H. cbv in H.
  repeat (destruct H as [<-|H]; [reflexivity|]). contradiction.
Qed.

(** X10: [_suggest_strong_passwords] never raises and returns exactly
    three suggestions: sixteen characters of the alphabet; four words of
    the word list, each capitalized, followed by a number below 100 in
    decimal; and an upper-case letter, a lower-case letter, a digit and a
    punctuation character followed by ten printable characters, so that
    the third suggestion always has all four character classes. *)
Theorem X10_three_suggestions (ucd : UCD) (g : rng) :
  exists s1 ws n c1 c2 c3 c4 rest g',
    _suggest_strong_passwords ucd g
    = Ok ([ s1;
            join (map (capitalize ucd) ws) ++ str_of_int n;
            [c1; c2; c3; c4] ++ rest ], g')
    /\ len s1 = 16
    /\ Forall (fun c => In c alphabet) s1
    /\ List.length ws = 4%nat
    /\ Forall (fun w => In w words) ws
    /\ 0 <= n < 100
    /\ In c1 ascii_uppercase /\ In c2 ascii_lowercase
    /\ In c3 digits /\ In c4 punctuation
    /\ List.length rest = 10%nat
    /\ Forall (fun c => In c printable) rest
    /\ existsb (isupper ucd) ([c1; c2; c3; c4] ++ rest) = true
    /\ existsb (islower ucd) ([c1; c2; c3; c4] ++ rest) = true
    /\ existsb (isdigit ucd) ([c1; c2; c3; c4] ++ rest) = true
    /\ existsb (fun c => char_in c punctuation) ([c1; c2; c3; c4] ++ rest)
       = true.
Proof.
  unfold _suggest_strong_passwords.
  destruct (generate_secure_password_spec 16 g) as [s1 [g1 [H1 [L1 F1]]]].
  step H1.
  destruct (for_gen_total
              (fun _ => w <~ choice words ;; ret (capitalize ucd w))
              (fun x => exists w, In w words /\ x = capitalize ucd w)
              (range 4) g1) as [caps [g2 [H2 [L2 F2]]]].
  { intros _ g0.
    destruct (choice_ok words g0) as [w [Hw Hin]]; [discriminate|].
    eexists _, _. step Hw. split; [reflexivity|].
    exists w. split; [exact Hin|reflexivity]. }
  step H2.
  apply Forall_map_exists in F2. destruct F2 as (ws & -> & Fw).
  rewrite length_map in L2.
  destruct (randbelow_ok 100 g2) as [n [H3 Hn]]; [lia|].
  step H3.
  destruct (choice_char ascii_uppercase (advance g2))
    as [c1 [H4 I1]]; [discriminate|].
  step H4.
  destruct (choice_char (repeat_str ascii_lowercase 5)
              (advance (advance g2))) as [c2 [H5 I2]]; [discriminate|].
  step H5. apply In_repeat_str in I2.
  destruct (choice_char (repeat_str digits 3)
              (advance (advance (advance g2))))
    as [c3 [H6 I3]]; [discriminate|].
  step H6. apply In_repeat_str in I3.
  destruct (choice_char (repeat_str punctuation 2)
              (advance (advance (advance (advance g2)))))
    as [c4 [H7 I4]]; [discriminate|].
  step H7. apply In_repeat_str in I4.
  destruct (for_gen_total (fun _ => choice (chars printable))
              (fun x => exists c, x = [c] /\ In c printable)
              (range 10)
              (advance (advance (advance (advance (advance g2))))))
    as [picks [g3 [H8 [L8 F8]]]].
  { intros _ g0.
    destruct (choice_char printable g0) as [c [Hc Hin]]; [discriminate|].
    exists [c], (advance g0). split; [exact Hc|].
    exists c. split; [reflexivity|exact Hin]. }
  step H8.
  destruct (join_singletons printable picks F8) as [Lr Fr].
  exists s1, ws, n, c1, c2, c3, c4, (join picks), g3.
  split; [reflexivity|].
  split; [exact L1|]. split; [exact F1|].
  split; [now rewrite L2|]. split; [exact Fw|]. split; [exact Hn|].
  split; [exact I1|]. split; [exact I2|]. split; [exact I3|].
  split; [exact I4|].
  split; [now rewrite Lr, L8|]. split; [exact Fr|].
  cbn [app existsb].
  rewrite (In_uppercase_isupper ucd c1 I1).
  rewrite (In_lowercase_islower ucd c2 I2).
  rewrite (In_digits_isdigit ucd c3 I3).
  rewrite (proj2 (char_in_In c4 punctuation) I4).
  rewrite !orb_true_r. repeat split; reflexivity.
Qed.

(** * X: the range query *)

Lemma hex_word_spec (x : Z) :
  List.length (SHA1.hex_word x) = 8%nat
  /\ Forall (fun c => In c hex_digits) (SHA1.hex_word x).
Proof.
  unfold SHA1.hex_word. split.
  - now rewrite length_map, length_range.
  - apply Forall_forall. intros c Hc. apply in_map_iff in Hc.
    destruct Hc as (i & <- & _). apply nth_In.
    change (List.length hex_digits) with 16%nat.
    pose proof (Z.mod_pos_bound (x / 16 ^ (7 - i)) 16 ltac:(lia)). lia.
Qed.

Lemma hexdigest_spec (bytes : list N) :
  List.length (SHA1.hexdigest bytes) = 40%nat
  /\ Forall (fun c => In c hex_digits) (SHA1.hexdigest bytes).
Proof.
  unfold SHA1.hexdigest.
  destruct (SHA1.digest bytes) as [[[[h0 h1] h2] h3] h4].
  destruct (hex_word_spec h0) as [L0 F0].
  destruct (hex_word_spec h1) as [L1 F1].
  destruct (hex_word_spec h2) as [L2 F2].
  destruct (hex_word_spec h3) as [L3 F3].
  destruct (hex_word_spec h4) as [L4 F4].
  split.
  - rewrite !length_app. lia.
  - repeat (apply Forall_app; split); assumption.
Qed.

Lemma hex_digit_upper (c : char) :
  In c hex_digits ->
  is_ascii c = true /\ In (ascii_upper_char c) hex_digits_upper.
Proof.
  intros H. cbv in H.
  repeat (destruct H as [<-|H]; [split; [reflexivity|cbv; tauto]|]).
  contradiction.
Qed.

Lemma sha1_upper_spec (ucd : UCD) (bytes : list N) :
  List.length (sha1_upper ucd bytes) = 40%nat
  /\ Forall (fun c => In c hex_digits_upper) (sha1_upper ucd bytes).
Proof.
  unfold sha1_upper, upper.
  destruct (hexdigest_spec bytes) as [L F].
  assert (A : forallb is_ascii (SHA1.hexdigest bytes) = true).
  { apply forallb_forall. intros c Hc.
    rewrite Forall_forall in F. now apply hex_digit_upper, F. }
  rewrite A. split; [now rewrite length_map|].
  apply Forall_forall. intros c Hc. apply in_map_iff in Hc.
  destruct Hc as (x & <- & Hx). rewrite Forall_forall in F.
  now apply hex_digit_upper, F.
Qed.

Lemma for_in_return_true_pure {A} (f : A -> bool) (xs : list A) :
  for_in_return_true (fun x => Ok (f x)) xs = Ok (existsb f xs).
Proof.
  induction xs as [|x xs IH]; [reflexivity|].
  cbn [for_in_return_true bind existsb].
  destruct (f x); [reflexivity|exact IH].
Qed.

Lemma for_in_return_true_ext {A} (f f' : A -> result bool) (xs : list A) :
  (forall x, f x = f' x) ->
  for_in_return_true f xs = for_in_return_true f' xs.
Proof.
  intros H. induction xs as [|x xs IH]; [reflexivity|].
  cbn [for_in_return_true]. now rewrite H, IH.
Qed.

Lemma split_go_first (c : char) (s cur : pystr) :
  exists others,
    split_go [c] s 0 cur = (rev cur ++ before c s) :: others.
Proof.
  revert cur. induction s as [|x s IH]; intros cur.
  - exists []. cbn. now rewrite app_nil_r.
  - cbn [split_go startswith before].
    assert (E : startswith s [] = true) by (destruct s; reflexivity).
    rewrite E, andb_true_r, (N.eqb_sym c x).
    destruct (N.eqb x c).
    + eexists. now rewrite app_nil_r.
    + destruct (IH (x :: cur)) as [others H]. exists others.
      rewrite H. cbn [rev]. now rewrite <- app_assoc.
Qed.

Lemma first_field (c : char) (s : pystr) :
  getitem (split s [c]) 0 = Ok (before c s).
Proof.
  unfold split. destruct (split_go_first c s []) as [others ->].
  reflexivity.
Qed.

(** X11: when the password can be encoded and the request returns, the
    URL requested ends in the first five of the forty upper-case
    hexadecimal digits of the SHA-1 digest and holds nothing else of the
    password; the other thirty-five digits are compared, on this side,
    with what stands before the first colon of each CR LF separated line
    of the response, and the check is true exactly when the status is 200
    and one line agrees. *)
Theorem X11_range_query (ucd : UCD) (requests_get : http)
    (password : pystr) (bytes : list N) (response : Response) :
  encode password = Ok bytes ->
  requests_get (range_url ucd bytes) range_headers = Ok response ->
  let digest := sha1_upper ucd bytes in
  range_url ucd bytes
  = str "https://api.pwnedpasswords.com/range/" ++ firstn 5 digest
  /\ List.length (firstn 5 digest) = 5%nat
  /\ List.length (skipn 5 digest) = 35%nat
  /\ Forall (fun c => In c hex_digits_upper) digest
  /\ _check_hibp_breach ucd requests_get password
     = Ok ((status_code response =? 200)
           && existsb (fun line =>
                         pystr_eqb (before (ch ":") line) (skipn 5 digest))
                      (split (text response) [13; 10]%N)).
Proof.
  intros He Hr digest.
  destruct (sha1_upper_spec ucd bytes) as [L F]. fold digest in L, F.
  split; [reflexivity|].
  split; [rewrite length_firstn; lia|].
  split; [rewrite length_skipn; lia|].
  split; [exact F|].
  unfold _check_hibp_breach. rewrite He. cbn [bind].
  unfold range_url, range_headers in Hr. rewrite Hr. cbn [bind].
  destruct (status_code response =? 200); [|reflexivity].
  cbn [andb].
  rewrite (for_in_return_true_ext
             (fun h => first <- getitem (split h (str ":")) 0 ;;
                       Ok (pystr_eqb first
                             (skipn 5 (upper ucd (SHA1.hexdigest bytes)))))
             (fun h => Ok (pystr_eqb (before (ch ":") h) (skipn 5 digest)))).
  - rewrite for_in_return_true_pure. cbn [bind try_except].
    now destruct (existsb _ _).
  - intros h. change (str ":") with [ch ":"]. now rewrite first_field.
Qed.

(** The query for "password" against a range that holds its suffix. *)
Lemma X11_range_query_witness :
  encode (str "password") = Ok (str "password")
  /\ exists response,
       net_pwned (range_url latin1 (str "password")) range_headers
       = Ok response
       /\ List.length (skipn 5 (sha1_upper latin1 (str "password")))
          = 35%nat
       /\ _check_hibp_breach latin1 net_pwned (str "password")
          = Ok ((status_code response =? 200)
                && existsb
                     (fun line =>
                        pystr_eqb (before (ch ":") line)
                          (skipn 5 (sha1_upper latin1 (str "password"))))
                     (split (text response) [13; 10]%N)).
Proof.
  split; [reflexivity|]. eexists. split; [reflexivity|].
  destruct (X11_range_query latin1 net_pwned (str "password")
              (str "password") _ eq_refl eq_refl)
    as (_ & _ & L & _ & H).
  split; [exact L|exact H].
Defined.

(** * X: bounds of the entropy *)

Lemma log2_real_le (x y : Z) :
  0 < x -> x <= y -> (log2_real x <= log2_real y)%R.
Proof.
  intros Hx Hxy. unfold log2_real.
  apply Rmult_le_compat_r.
  - left. apply Rinv_0_lt_compat. exact ln_2_pos.
  - apply IZR_lt in Hx. apply IZR_le in Hxy. destruct Hxy as [Hlt|Heq].
    + left. now apply ln_increasing.
    + rewrite Heq. lra.
Qed.

Lemma log2_real_pow2 (n : nat) : log2_real (2 ^ Z.of_nat n) = INR n.
Proof.
  unfold log2_real.
  rewrite <- pow_IZR, ln_pow by lra.
  field. pose proof ln_2_pos. lra.
Qed.

Lemma log2_real_94 : (log2_real 94 <= 7)%R.
Proof.
  replace 7%R with (INR 7) by (cbn; lra). rewrite <- (log2_real_pow2 7).
  apply log2_real_le; [lia|]. cbn. lia.
Qed.

Lemma log2_real_10 : (3 <= log2_real 10)%R.
Proof.
  replace 3%R with (INR 3) by (cbn; lra). rewrite <- (log2_real_pow2 3).
  apply log2_real_le; [cbn; lia|]. cbn. lia.
Qed.

(** X12: the entropy is 0 when the password has no ASCII letter, digit or
    punctuation character, and otherwise lies between the length times
    log2(10) and the length times log2(94): between 3 and 7 bits for each
    character. *)
Theorem X12_entropy_bounds (password : pystr) :
  exists e,
    _calculate_entropy __init__ password = Ok e
    /\ (pool_size password = 0 -> e = 0%R)
    /\ (pool_size password <> 0 ->
        (IZR (len password) * log2_real 10 <= e
         <= IZR (len password) * log2_real 94)%R)
    /\ (e <= 7 * IZR (len password))%R
    /\ (pool_size password <> 0 -> (3 * IZR (len password) <= e)%R).
Proof.
  exists (entropy_of password). split; [apply calculate_entropy_eq|].
  assert (L : (0 <= IZR (len password))%R).
  { apply IZR_le. unfold len. lia. }
  pose proof log2_real_94 as U. pose proof log2_real_10 as D.
  unfold entropy_of.
  destruct (pool_size password =? 0) eqn:E.
  - apply Z.eqb_eq in E.
    split; [reflexivity|]. split; [contradiction|].
    split; [nra|contradiction].
  - apply Z.eqb_neq in E.
    destruct (pool_size_range password) as [H|H]; [contradiction|].
    assert (B1 : (log2_real 10 <= log2_real (pool_size password))%R)
      by (apply log2_real_le; lia).
    assert (B2 : (log2_real (pool_size password) <= log2_real 94)%R)
      by (apply log2_real_le; lia).
    split; [contradiction|]. split; [intros _; split; nra|].
    split; [nra|intros _; nra].
Qed.

(** * X: flags and classes on ASCII passwords *)

Lemma char_in_consecutive (lo : N) (n : nat) (s : pystr) (c : char) :
  (0 < n)%nat ->
  s = map N.of_nat (seq (N.to_nat lo) n) ->
  char_in c s = between lo (lo + N.of_nat n - 1) c || false.
Proof.
  intros Hn ->. rewrite orb_false_r. apply eq_true_iff_eq.
  rewrite char_in_In, in_map_iff. unfold between.
  rewrite andb_true_iff, !N.leb_le. split.
  - intros (k & <- & Hk). apply in_seq in Hk. lia.
  - intros [H1 H2]. exists (N.to_nat c). split; [apply N2Nat.id|].
    apply in_seq. lia.
Qed.

Lemma char_in_lowercase (c : char) :
  char_in c ascii_lowercase = between 97 122 c.
Proof.
  rewrite (char_in_consecutive 97 26) by (lia || reflexivity).
  now rewrite orb_false_r.
Qed.

Lemma char_in_uppercase (c : char) :
  char_in c ascii_uppercase = between 65 90 c.
Proof.
  rewrite (char_in_consecutive 65 26) by (lia || reflexivity).
  now rewrite orb_false_r.
Qed.

Lemma char_in_digits (c : char) : char_in c digits = between 48 57 c.
Proof.
  rewrite (char_in_consecutive 48 10) by (lia || reflexivity).
  now rewrite orb_false_r.
Qed.

Lemma existsb_ext_in {A} (f f' : A -> bool) (xs : list A) :
  (forall x, In x xs -> f x = f' x) -> existsb f xs = existsb f' xs.
Proof.
  intros H. induction xs as [|x xs IH]; [reflexivity|].
  cbn. rewrite (H x (or_introl eq_refl)), IH; [reflexivity|].
  intros y Hy. apply H. now right.
Qed.

Lemma class_present_ascii (ucd : UCD) (password : pystr) :
  forallb is_ascii password = true ->
  class_present ascii_lowercase password = existsb (islower ucd) password
  /\ class_present ascii_uppercase password
     = existsb (isupper ucd) password
  /\ class_present digits password = existsb (isdigit ucd) password
  /\ class_present punctuation password
     = existsb (fun c => char_in c punctuation) password.
Proof.
  intros A. rewrite forallb_forall in A. unfold class_present.
  rewrite <- !(existsb_swap password).
  repeat split; apply existsb_ext_in; intros c Hc.
  - unfold islower. now rewrite (A c Hc), char_in_lowercase.
  - unfold isupper. now rewrite (A c Hc), char_in_uppercase.
  - unfold isdigit. now rewrite (A c Hc), char_in_digits.
Qed.

(** X13: on a password of ASCII characters, the character pool of the
    entropy is made of the classes that the four flags of the metrics
    report: 26 for [has_lowercase], 26 for [has_uppercase], 10 for
    [has_digits], 32 for [has_special]; so the entropy is 0 when all four
    flags are false, and the length times the logarithm of that pool
    otherwise. *)
Theorem X13_flags_and_pool_agree_on_ascii (ucd : UCD) (requests_get : http)
    (password username : pystr) (g : rng) :
  forallb is_ascii password = true ->
  exists analysis g' up lo di sp,
    analyze_password ucd __init__ requests_get password username g
    = Ok (analysis, g')
    /\ Metrics.has_uppercase (Analysis.metrics analysis) = Some up
    /\ Metrics.has_lowercase (Analysis.metrics analysis) = Some lo
    /\ Metrics.has_digits (Analysis.metrics analysis) = Some di
    /\ Metrics.has_special (Analysis.metrics analysis) = Some sp
    /\ pool_size password
       = (if lo then 26 else 0) + (if up then 26 else 0)
         + (if di then 10 else 0) + (if sp then 32 else 0)
    /\ Analysis.entropy analysis
       = (if up || lo || di || sp
          then IZR (len password) * log2_real (pool_size password)
          else 0)%R.
Proof.
  intros A.
  destruct (analyze_password_shape ucd requests_get password username g)
    as (analysis & g' & H & S).
  destruct S as [sq ct b p g' _ _ _ _ _].
  eexists _, g', _, _, _, _. split; [exact H|].
  unfold analysis_of.
  cbn [Analysis.metrics Analysis.entropy full_metrics
       Metrics.has_uppercase Metrics.has_lowercase Metrics.has_digits
       Metrics.has_special].
  do 4 (split; [reflexivity|]).
  destruct (class_present_ascii ucd password A) as (C1 & C2 & C3 & C4).
  assert (P : pool_size password
              = (if existsb (islower ucd) password then 26 else 0)
                + (if existsb (isupper ucd) password then 26 else 0)
                + (if existsb (isdigit ucd) password then 10 else 0)
                + (if existsb (fun c => char_in c punctuation) password
                   then 32 else 0)).
  { unfold pool_size, class_table. cbn [fold_right].
    rewrite C1, C2, C3, C4. lia. }
  split; [exact P|].
  unfold entropy_of. rewrite P.
  destruct (existsb (islower ucd) password),
    (existsb (isupper ucd) password), (existsb (isdigit ucd) password),
    (existsb (fun c => char_in c punctuation) password); reflexivity.
Qed.

Lemma X13_flags_and_pool_agree_on_ascii_witness :
  forallb is_ascii (str "Tr0ub4dor&3") = true
  /\ exists analysis g' up lo di sp,
       analyze_password latin1 __init__ net_down (str "Tr0ub4dor&3") []
         rng_a
       = Ok (analysis, g')
       /\ Metrics.has_uppercase (Analysis.metrics analysis) = Some up
       /\ Metrics.has_lowercase (Analysis.metrics analysis) = Some lo
       /\ Metrics.has_digits (Analysis.metrics analysis) = Some di
       /\ Metrics.has_special (Analysis.metrics analysis) = Some sp
       /\ pool_size (str "Tr0ub4dor&3")
          = (if lo then 26 else 0) + (if up then 26 else 0)
            + (if di then 10 else 0) + (if sp then 32 else 0)
       /\ Analysis.entropy analysis
          = (if up || lo || di || sp
             then IZR (len (str "Tr0ub4dor&3"))
                  * log2_real (pool_size (str "Tr0ub4dor&3"))
             else 0)%R.
Proof.
  split; [reflexivity|].
  apply (X13_flags_and_pool_agree_on_ascii latin1 net_down
           (str "Tr0ub4dor&3") [] rng_a).
  reflexivity.
Defined.

(** * X: the transition ratio read backwards *)

Lemma pair_step_sym (ucd : UCD) (a b : char) :
  pair_step ucd a b = pair_step ucd b a.
Proof.
  unfold pair_step.
  destruct (isalpha ucd a), (isalpha ucd b), (isupper ucd a),
    (isupper ucd b), (isdigit ucd a), (isdigit ucd b),
    (char_in a punctuation), (char_in b punctuation); reflexivity.
Qed.

Lemma sum_pairs_snoc (f : char -> char -> Z) (s : pystr) (l x : char) :
  sum_pairs f ((s ++ [l]) ++ [x]) = sum_pairs f (s ++ [l]) + f l x.
Proof.
  induction s as [|a s IH]; [cbn; lia|].
  destruct s as [|b s].
  - cbn. lia.
  - change (sum_pairs f (((a :: b :: s) ++ [l]) ++ [x]))
      with (f a b + sum_pairs f (((b :: s) ++ [l]) ++ [x])).
    change (sum_pairs f ((a :: b :: s) ++ [l]))
      with (f a b + sum_pairs f ((b :: s) ++ [l])).
    rewrite IH. lia.
Qed.

Lemma sum_pairs_rev (f : char -> char -> Z) (s : pystr) :
  (forall a b, f a b = f b a) ->
  sum_pairs f (rev s) = sum_pairs f s.
Proof.
  intros Hf. induction s as [|a s IH]; [reflexivity|].
  destruct s as [|b s]; [reflexivity|].
  change (rev (a :: b :: s)) with ((rev s ++ [b]) ++ [a]).
  rewrite sum_pairs_snoc.
  change (rev s ++ [b]) with (rev (b :: s)). rewrite IH.
  change (sum_pairs f (a :: b :: s)) with (f a b + sum_pairs f (b :: s)).
  rewrite (Hf b a). lia.
Qed.

(** X14: the transition ratio of a password read backwards is the ratio
    of the password: whether a pair counts does not depend on the order
    of its two characters. *)
Theorem X14_transitions_of_reverse (ucd : UCD) (password : pystr) :
  _analyze_char_transitions ucd (rev password)
  = _analyze_char_transitions ucd password.
Proof.
  rewrite !analyze_char_transitions_eq.
  assert (L : len (rev password) = len password)
    by (unfold len; now rewrite length_rev).
  rewrite L, (sum_pairs_rev _ _ (pair_step_sym ucd)). reflexivity.
Qed.

(** * X: the username, whatever its case *)

Lemma lower_ascii (ucd : UCD) (s : pystr) :
  forallb is_ascii s = true -> lower ucd s = map ascii_lower_char s.
Proof. intros H. unfold lower. now rewrite H. Qed.

Lemma In_msg_username (ucd : UCD) (password username : pystr) :
  In msg_username (_detect_weaknesses ucd __init__ password username)
  <-> truthy username
      && contains (lower ucd password) (lower ucd username) = true.
Proof.
  rewrite detect_weaknesses_eq, In_fired. unfold detectors. cbn [In].
  split.
  - intros [H|[H|[H|[H|[H|[]]]]]]; try discriminate H.
    now injection H.
  - intros ->. right. right. now left.
Qed.

(** X15: for a password and a username of ASCII characters, the username
    finding is reported exactly when the username is not empty and occurs
    in the password in some mixture of upper and lower case. *)
Theorem X15_username_in_any_case (ucd : UCD) (password username : pystr) :
  forallb is_ascii password = true ->
  forallb is_ascii username = true ->
  In msg_username (_detect_weaknesses ucd __init__ password username)
  <-> username <> []
      /\ exists pre occurrence post,
           password = pre ++ occurrence ++ post
           /\ map ascii_lower_char occurrence
              = map ascii_lower_char username.
Proof.
  intros Ap Au.
  rewrite In_msg_username, andb_true_iff, contains_spec.
  rewrite (lower_ascii ucd password Ap), (lower_ascii ucd username Au).
  split.
  - intros [Ht (pre & post & E)]. split.
    + destruct username; [discriminate|discriminate].
    + apply map_eq_app in E. destruct E as (pre' & r & -> & <- & E).
      apply map_eq_app in E. destruct E as (occ & post' & -> & E & <-).
      now exists pre', occ, post'.
  - intros [Hn (pre & occ & post & -> & E)]. split.
    + destruct username; [contradiction|reflexivity].
    + exists (map ascii_lower_char pre), (map ascii_lower_char post).
      now rewrite !map_app, E.
Qed.

Lemma X15_username_in_any_case_witness :
  forallb is_ascii (str "johnSmith99") = true
  /\ forallb is_ascii (str "JOHN") = true
  /\ (In msg_username
        (_detect_weaknesses latin1 __init__ (str "johnSmith99")
           (str "JOHN"))
      <-> str "JOHN" <> []
          /\ exists pre occurrence post,
               str "johnSmith99" = pre ++ occurrence ++ post
               /\ map ascii_lower_char occurrence
                  = map ascii_lower_char (str "JOHN")).
Proof.
  split; [reflexivity|]. split; [reflexivity|].
  apply (X15_username_in_any_case latin1 (str "johnSmith99") (str "JOHN"));
    reflexivity.
Defined.

(** * X: every string of the alphabet can be generated *)

Lemma choice_chars_reads (s : pystr) (raw : list nat) (k i : nat) :
  nth k raw 0%nat = i ->
  (i < List.length s)%nat ->
  choice (chars s) (rng_of raw k) = Ok ([nth i s 0%N], rng_of raw (S k)).
Proof.
  intros Hk Hi. unfold choice, chars.
  destruct s as [|c0 s]; [cbn in Hi; lia|].
  cbn [map]. unfold randbelow, len.
  cbn [List.length supply pos rng_of]. rewrite length_map, Hk.
  destruct (Z.of_nat (S (List.length s)) <=? 0) eqn:E;
    [apply Z.leb_le in E; lia|].
  cbn [List.length] in Hi.
  rewrite nat_N_Z, Z.mod_small by lia. rewrite Nat2Z.id.
  unfold rng_of. f_equal. f_equal.
  change ([c0] :: map (fun c => [c]) s)
    with (map (fun c : char => [c]) (c0 :: s)).
  rewrite (nth_indep _ [c0] [0%N])
    by (rewrite length_map; cbn [List.length]; exact Hi).
  apply (map_nth (fun c : char => [c])).
Qed.

Lemma for_gen_reads (s : pystr) (suffix prefix : list nat)
    (idx : list Z) :
  List.length idx = List.length suffix ->
  Forall (fun i => (i < List.length s)%nat) suffix ->
  for_gen (fun _ => choice (chars s)) idx
          (rng_of (prefix ++ suffix) (List.length prefix))
  = Ok (map (fun i => [nth i s 0%N]) suffix,
        rng_of (prefix ++ suffix) (List.length prefix + List.length suffix)).
Proof.
  revert prefix idx.
  induction suffix as [|i suffix IH]; intros prefix idx Hl Hf.
  - destruct idx; [|discriminate]. cbn. unfold ret.
    now rewrite Nat.add_0_r.
  - destruct idx as [|j idx]; [discriminate|].
    inversion Hf as [|? ? Hi Hf']; subst.
    cbn [for_gen]. unfold bindg at 1.
    rewrite (choice_chars_reads s _ _ i).
    + specialize (IH (prefix ++ [i]) idx).
      rewrite <- app_assoc in IH. cbn [app] in IH.
      rewrite length_app in IH. cbn [List.length] in IH.
      replace (List.length prefix + 1)%nat with (S (List.length prefix))
        in IH by lia.
      unfold bindg at 1. rewrite IH; [|cbn in Hl; lia|exact Hf'].
      unfold ret. cbn [map List.length].
      now replace (List.length prefix + S (List.length suffix))%nat
        with (S (List.length prefix) + List.length suffix)%nat by lia.
    + rewrite nth_middle. reflexivity.
    + exact Hi.
Qed.

Lemma indices_of (s t : pystr) :
  Forall (fun c => In c s) t ->
  exists idxs,
    List.length idxs = List.length t
    /\ Forall (fun i => (i < List.length s)%nat) idxs
    /\ map (fun i => nth i s 0%N) idxs = t.
Proof.
  induction 1 as [|c t Hc _ (idxs & L & F & E)].
  - now exists [].
  - destruct (In_nth _ _ 0%N Hc) as (i & Hi & Hn).
    exists (i :: idxs). split; [cbn [List.length]; now rewrite L|].
    split; [now constructor|].
    cbn [map]. rewrite E. f_equal. exact Hn.
Qed.

Lemma join_chars (t : pystr) : join (map (fun c => [c]) t) = t.
Proof.
  unfold join. induction t as [|c t IH]; [reflexivity|].
  cbn. now rewrite IH.
Qed.

(** X16: every string of letters, digits and punctuation characters is an
    output of [generate_secure_password] for its length: some random
    supply produces it. *)
Theorem X16_every_password_can_be_generated (s : pystr) :
  Forall (fun c => In c (ascii_letters ++ digits ++ punctuation)) s ->
  exists g g', generate_secure_password (len s) g = Ok (s, g').
Proof.
  intros Hs. fold alphabet in Hs.
  destruct (indices_of alphabet s Hs) as (idxs & L & F & E).
  exists (rng_of idxs 0). eexists.
  unfold generate_secure_password. fold alphabet.
  pose proof (for_gen_reads alphabet idxs [] (range (len s))) as R.
  cbn [app List.length] in R.
  unfold bindg. rewrite R.
  - unfold ret. rewrite <- (map_map (fun i => nth i alphabet 0%N)
                              (fun c => [c])), E, join_chars.
    reflexivity.
  - rewrite length_range, L. unfold len. lia.
  - exact F.
Qed.

Lemma X16_every_password_can_be_generated_witness :
  Forall (fun c => In c (ascii_letters ++ digits ++ punctuation))
         (str "Tr0ub4dor&3")
  /\ exists g g',
       generate_secure_password (len (str "Tr0ub4dor&3")) g
       = Ok (str "Tr0ub4dor&3", g').
Proof.
  assert (H : Forall (fun c => In c (ascii_letters ++ digits ++ punctuation))
                     (str "Tr0ub4dor&3")).
  { apply Forall_forall. intros c Hc. cbv in Hc.
    repeat (destruct Hc as [<-|Hc]; [cbv; tauto|]). contradiction. }
  split; [exact H|].
  exact (X16_every_password_can_be_generated (str "Tr0ub4dor&3") H).
Defined.

(** * X: what a green score takes *)

Lemma score_formula_clean (length : Z) (ct : Q) :
  (0 <= ct <= 1)%Q -> 10 <= length ->
  80 <= score_formula length true true true true ct false false false []
          false.
Proof.
  intros Hct Hl. pose proof (floor_times_ten ct Hct) as F.
  unfold score_formula, clamp, bonus, penalty, nonempty. lia.
Qed.

Lemma Some_inj {A} (a b : A) : Some a = Some b -> a = b.
Proof. intros H. now injection H. Qed.

(** X17: a password of at least ten characters with all four character
    classes, no repeated character, no ascending sequence, no keyboard
    pattern, no weakness and no breach scores at least 80, so [main]
    prints its score in green; from twelve characters on, the only
    recommendation left is the passphrase advice. *)
Theorem X17_clean_passwords_are_green (ucd : UCD) (requests_get : http)
    (password username : pystr) (g : rng) :
  exists analysis g',
    analyze_password ucd __init__ requests_get password username g
    = Ok (analysis, g')
    /\ let m := Analysis.metrics analysis in
       (10 <= len password ->
        Metrics.has_uppercase m = Some true ->
        Metrics.has_lowercase m = Some true ->
        Metrics.has_digits m = Some true ->
        Metrics.has_special m = Some true ->
        Metrics.repeated_chars m = Some false ->
        Metrics.sequential_chars m = Some false ->
        Metrics.keyboard_pattern m = Some false ->
        Metrics.breached m = Some false ->
        Analysis.weaknesses analysis = [] ->
        80 <= Analysis.strength_score analysis
        /\ score_color (Analysis.strength_score analysis) = GREEN
        /\ (12 <= len password ->
            Analysis.recommendations analysis = [rec_passphrase])).
Proof.
  destruct (analyze_password_shape ucd requests_get password username g)
    as (analysis & g' & H & S).
  exists analysis, g'. split; [exact H|].
  destruct S as [sq ct b p g' _ _ Hct _ _].
  unfold analysis_of.
  cbn [Analysis.metrics Analysis.weaknesses Analysis.strength_score
       Analysis.recommendations full_metrics Metrics.has_uppercase
       Metrics.has_lowercase Metrics.has_digits Metrics.has_special
       Metrics.repeated_chars Metrics.sequential_chars
       Metrics.keyboard_pattern Metrics.breached].
  cbn zeta. intros Hl Hup Hlo Hdi Hsp Hrep Hsq Hkb Hbr Hw.
  apply Some_inj in Hup, Hlo, Hdi, Hsp, Hrep, Hsq, Hkb, Hbr.
  rewrite Hup, Hlo, Hdi, Hsp, Hrep, Hsq, Hkb, Hbr, Hw.
  pose proof (score_formula_clean (len password) ct Hct Hl) as G.
  split; [exact G|]. split; [now apply score_color_GREEN|].
  intros Hl12. unfold recommendations_for.
  destruct (Z.ltb_spec
              (score_formula (len password) true true true true ct false
                 false false [] false) 60); [lia|].
  destruct (Z.ltb_spec (len password) 12); [lia|]. reflexivity.
Qed.

(** * X: adding characters *)

Lemma class_present_app (cls pre s post : pystr) :
  class_present cls s = true ->
  class_present cls (pre ++ s ++ post) = true.
Proof.
  unfold class_present. rewrite !existsb_exists.
  intros (m & Hm & H). exists m. split; [exact Hm|].
  apply char_in_In. apply char_in_In in H.
  apply in_or_app. right. apply in_or_app. now left.
Qed.

Lemma present_le (cls pre s post : pystr) (size : Z) :
  0 <= size ->
  (if class_present cls s then size else 0)
  <= (if class_present cls (pre ++ s ++ post) then size else 0).
Proof.
  intros Hs. pose proof (class_present_app cls pre s post) as H.
  destruct (class_present cls s); [now rewrite (H eq_refl)|].
  now destruct (class_present cls (pre ++ s ++ post)).
Qed.

Lemma pool_size_app (pre s post : pystr) :
  pool_size s <= pool_size (pre ++ s ++ post).
Proof.
  unfold pool_size, class_table. cbn [fold_right].
  pose proof (present_le ascii_lowercase pre s post 26 ltac:(lia)).
  pose proof (present_le ascii_uppercase pre s post 26 ltac:(lia)).
  pose proof (present_le digits pre s post 10 ltac:(lia)).
  pose proof (present_le punctuation pre s post 32 ltac:(lia)).
  lia.
Qed.

Lemma entropy_of_app (pre s post : pystr) :
  (entropy_of s <= entropy_of (pre ++ s ++ post))%R.
Proof.
  pose proof (entropy_nonneg (pre ++ s ++ post)) as N.
  unfold entropy_of in *.
  destruct (pool_size s =? 0) eqn:E; [exact N|].
  apply Z.eqb_neq in E.
  pose proof (pool_size_app pre s post) as P.
  destruct (pool_size_range s) as [H|H]; [contradiction|].
  destruct (pool_size (pre ++ s ++ post) =? 0) eqn:E';
    [apply Z.eqb_eq in E'; lia|].
  assert (L : (IZR (len s) <= IZR (len (pre ++ s ++ post)))%R).
  { apply IZR_le. unfold len. rewrite !length_app. lia. }
  assert (L0 : (0 <= IZR (len s))%R) by (apply IZR_le; unfold len; lia).
  assert (B : (log2_real (pool_size s)
               <= log2_real (pool_size (pre ++ s ++ post)))%R)
    by (apply log2_real_le; lia).
  assert (B0 : (0 <= log2_real (pool_size s))%R)
    by (apply log2_real_nonneg; lia).
  apply Rmult_le_compat; assumption.
Qed.

(** X18: characters added before or after a password never lower its
    entropy. *)
Theorem X18_entropy_grows_with_the_password (pre password post : pystr) :
  exists e e',
    _calculate_entropy __init__ password = Ok e
    /\ _calculate_entropy __init__ (pre ++ password ++ post) = Ok e'
    /\ (e <= e')%R.
Proof.
  exists (entropy_of password), (entropy_of (pre ++ password ++ post)).
  split; [apply calculate_entropy_eq|].
  split; [apply calculate_entropy_eq|apply entropy_of_app].
Qed.

Lemma count_app (s t : pystr) (c : char) :
  count (s ++ t) c = count s c + count t c.
Proof.
  unfold count, len, pystr, char in *.
  rewrite filter_app, length_app. lia.
Qed.

Lemma take_rep_app (cls : char -> bool) (n : nat) (s s' post : pystr) :
  take_rep cls n s = Some s' ->
  take_rep cls n (s ++ post) = Some (s' ++ post).
Proof.
  revert s. induction n as [|n IH]; intros s; cbn [take_rep].
  - intros H. now injection H as ->.
  - destruct s as [|c s]; [discriminate|]. cbn [app].
    destruct (cls c); [apply IH|discriminate].
Qed.

Lemma match_here_suffix (r : regex) (s post : pystr) :
  match_here r s = true -> match_here r (s ++ post) = true.
Proof.
  revert s. induction r as [|[cls lo hi] r IH]; intros s; [reflexivity|].
  cbn [match_here]. rewrite !existsb_exists.
  intros (n & Hn & H). exists n. split; [exact Hn|].
  destruct (take_rep cls n s) as [s'|] eqn:E; [|discriminate].
  rewrite (take_rep_app _ _ _ _ post E). now apply IH.
Qed.

Lemma re_search_around (r : regex) (pre s post : pystr) :
  re_search r s = true -> re_search r (pre ++ s ++ post) = true.
Proof.
  rewrite !re_search_spec. intros (p & rest & -> & H).
  exists (pre ++ p), (rest ++ post). split.
  - now rewrite <- !app_assoc.
  - now apply match_here_suffix.
Qed.

(** X19: a password flagged for a repeated character, for an ascending
    sequence or for a date pattern stays flagged when characters are
    added before or after it. *)
Theorem X19_flags_survive_additions (ucd : UCD)
    (pre password post : pystr) :
  (_check_repeated_chars password = true ->
   _check_repeated_chars (pre ++ password ++ post) = true)
  /\ (_check_sequences password = Ok true ->
      _check_sequences (pre ++ password ++ post) = Ok true)
  /\ (_check_date_patterns ucd password = true ->
      _check_date_patterns ucd (pre ++ password ++ post) = true).
Proof.
  split; [|split].
  - rewrite !check_repeated_chars_iff. intros [c Hc]. exists c.
    rewrite !count_app.
    pose proof (count_nonneg pre c). pose proof (count_nonneg post c). lia.
  - rewrite !check_sequences_eq. intros H. apply Ok_inj in H.
    f_equal. apply run3_spec. apply run3_spec in H.
    destruct H as (p & a & rest & ->).
    exists (pre ++ p), a, (rest ++ post).
    now rewrite <- !app_assoc.
  - unfold _check_date_patterns. rewrite !existsb_exists.
    intros (pattern & Hp & H). exists pattern. split; [exact Hp|].
    now apply re_search_around.
Qed.

Lemma contains_around (f : char -> char) (pre s post word : pystr) :
  contains (map f s) word = true ->
  contains (map f (pre ++ s ++ post)) word = true.
Proof.
  rewrite !contains_spec. intros (p & q & E).
  exists (map f pre ++ p), (q ++ map f post).
  rewrite !map_app, E. now rewrite <- !app_assoc.
Qed.

Lemma forallb_ascii_app (pre s post : pystr) :
  forallb is_ascii (pre ++ s ++ post) = true ->
  forallb is_ascii s = true.
Proof.
  rewrite !forallb_app, !andb_true_iff. tauto.
Qed.

(** X20: for ASCII passwords the same holds of the keyboard patterns and
    of the dictionary patterns: a flagged password stays flagged when
    ASCII characters are added before or after it. *)
Theorem X20_patterns_survive_additions (ucd : UCD)
    (pre password post : pystr) :
  forallb is_ascii (pre ++ password ++ post) = true ->
  (_check_keyboard_patterns ucd __init__ password = true ->
   _check_keyboard_patterns ucd __init__ (pre ++ password ++ post) = true)
  /\ (_has_dictionary_patterns ucd password = true ->
      _has_dictionary_patterns ucd (pre ++ password ++ post) = true).
Proof.
  intros A. pose proof (forallb_ascii_app _ _ _ A) as A'.
  split.
  - unfold _check_keyboard_patterns.
    rewrite (lower_ascii ucd _ A), (lower_ascii ucd _ A').
    rewrite !existsb_exists. intros (w & Hw & H).
    exists w. split; [exact Hw|]. now apply contains_around.
  - unfold _has_dictionary_patterns.
    rewrite !fold_replace_map.
    rewrite (lower_ascii ucd _ A), (lower_ascii ucd _ A').
    rewrite !map_map, !existsb_exists. intros (w & Hw & H).
    exists w. split; [exact Hw|].
    now apply (contains_around
                 (fun c => substitute_char common_subs (ascii_lower_char c))).
Qed.

Lemma X20_patterns_survive_additions_witness :
  forallb is_ascii (str "my" ++ str "Qwerty" ++ str "P@ssw0rd!") = true
  /\ (_check_keyboard_patterns latin1 __init__ (str "Qwerty") = true ->
      _check_keyboard_patterns latin1 __init__
        (str "my" ++ str "Qwerty" ++ str "P@ssw0rd!") = true).
Proof.
  split; [reflexivity|].
  apply (X20_patterns_survive_additions latin1 (str "my") (str "Qwerty")
           (str "P@ssw0rd!")).
  reflexivity.
Defined.

(** A clean password of thirteen characters. *)
Example clean_password_is_green :
  exists analysis g',
    analyze_password latin1 __init__ net_down (str "Tr0ub4dor&3xy") []
      rng_a
    = Ok (analysis, g')
    /\ score_color (Analysis.strength_score analysis) = GREEN
    /\ Analysis.recommendations analysis = [rec_passphrase].
Proof.
  destruct (analyze_password_shape latin1 net_down (str "Tr0ub4dor&3xy") []
              rng_a) as (analysis & g' & H & S).
  exists analysis, g'. split; [exact H|].
  destruct S as [sq ct b p g' Hsq Hct _ Hb _].
  apply Ok_inj in Hsq. apply Ok_inj in Hct. apply Ok_inj in Hb.
  subst sq ct b. split; vm_compute; reflexivity.
Qed.
